(** * Guttenread: the Gutendex lookup routine of [guttenread_mcp/server.py]

    A shallow embedding of [_pick_best_text_format], [_search_gutendex],
    [_download_text], [_normalize_book] and [search_gutenberg], and the
    properties of the lookup routine proved about it.  Two callers follow:
    [prompt_for_titles] of [cli.py], and the tool call of
    [reading_list_app.py] ([call_search_gutenberg_tool] and the dispatch in
    [main]).

    Conventions of the embedding.
    - A Python value that can come out of [json.loads] (or be handed to the
      tool as an argument) is a [pyval].  A [dict] is an association list in
      insertion order, read with [dict_get] (first binding of a key).
    - A [str] is a [string]; one [ascii] stands for one code point below 256.
    - An uncaught exception is the [Raise] branch of [result].
    - The two HTTP endpoints are an oracle, [remote], asked once per call
      site.  Every call is also written to a log of [call]s, handler after
      handler; how the handlers interleave in time is not modelled, except
      for what a raising handler leaves of the others (see [remote]). *)

From Stdlib Require Import ZArith List String Ascii Bool Lia.
From Stdlib Require Import Numbers.DecimalString.
From Stdlib Require Import Floats.SpecFloat.
From Stdlib Require Numbers.DecimalPos Numbers.DecimalZ.
Import ListNotations.

Local Open Scope string_scope.
Local Open Scope Z_scope.

(** ** Python values *)

#[warnings="-register-all"]
Inductive pyval : Type :=
| PNone
| PBool (b : bool)
| PInt (n : Z)
| PFloat (f : spec_float)
| PStr (s : string)
| PList (l : list pyval)
| PDict (d : list (string * pyval)).

Definition pydict : Type := list (string * pyval).

(** [bool(v)]: the truth value Python gives to [v] in [if v] and [v or d]. *)
Definition truthy (v : pyval) : bool :=
  match v with
  | PNone => false
  | PBool b => b
  | PInt n => negb (n =? 0)
  | PFloat (S754_zero _) => false
  | PFloat _ => true
  | PStr s => negb (s =? "")%string
  | PList l => match l with [] => false | _ => true end
  | PDict d => match d with [] => false | _ => true end
  end.

(** [v or d] *)
Definition py_or (v d : pyval) : pyval := if truthy v then v else d.

(** [type(v).__name__] *)
Definition type_name (v : pyval) : string :=
  match v with
  | PNone => "NoneType"
  | PBool _ => "bool"
  | PInt _ => "int"
  | PFloat _ => "float"
  | PStr _ => "str"
  | PList _ => "list"
  | PDict _ => "dict"
  end.

Definition is_dict (v : pyval) : bool :=
  match v with PDict _ => true | _ => false end.

Definition is_list (v : pyval) : bool :=
  match v with PList _ => true | _ => false end.

Definition is_str (v : pyval) : bool :=
  match v with PStr _ => true | _ => false end.

(** [isinstance(v, int)]: [bool] is a subclass of [int]. *)
Definition isinstance_int (v : pyval) : bool :=
  match v with PInt _ | PBool _ => true | _ => false end.

(** ** Dictionaries *)

Fixpoint dict_get (k : string) (d : pydict) : option pyval :=
  match d with
  | [] => None
  | (k', v) :: rest => if (k' =? k)%string then Some v else dict_get k rest
  end.

(** [d.get(k)] *)
Definition py_get (k : string) (d : pydict) : pyval :=
  match dict_get k d with Some v => v | None => PNone end.

(** [d.get(k, default)] *)
Definition py_get_default (k : string) (d : pydict) (default : pyval) : pyval :=
  match dict_get k d with Some v => v | None => default end.

(** [d[k] = v]: a present key keeps its place, a new one goes last. *)
Fixpoint dict_set (k : string) (v : pyval) (d : pydict) : pydict :=
  match d with
  | [] => [(k, v)]
  | (k', v') :: rest =>
      if (k' =? k)%string then (k, v) :: rest else (k', v') :: dict_set k v rest
  end.

Definition dict_keys (d : pydict) : list string := map fst d.

(** ** Strings *)

Definition char_code (c : ascii) : N := N_of_ascii c.

(** [c.isspace()] on the code points below 256. *)
Definition py_isspace (c : ascii) : bool :=
  let n := char_code c in
  (((9 <=? n) && (n <=? 13)) || ((28 <=? n) && (n <=? 32))
   || (n =? 133) || (n =? 160))%N.

(** [c.lower()] on the code points below 256: A-Z and the Latin-1 capitals
    (all of 0xC0-0xDE but the multiplication sign 0xD7). *)
Definition py_lower_char (c : ascii) : ascii :=
  let n := char_code c in
  if (((65 <=? n) && (n <=? 90))
      || ((192 <=? n) && (n <=? 222) && negb (n =? 215)))%N
  then ascii_of_N (n + 32) else c.

Fixpoint py_lower (s : string) : string :=
  match s with
  | EmptyString => EmptyString
  | String c rest => String (py_lower_char c) (py_lower rest)
  end.

Fixpoint lstrip (s : string) : string :=
  match s with
  | EmptyString => EmptyString
  | String c rest => if py_isspace c then lstrip rest else s
  end.

Fixpoint string_rev (s : string) : string :=
  match s with
  | EmptyString => EmptyString
  | String c rest => string_rev rest ++ String c EmptyString
  end.

Definition rstrip (s : string) : string := string_rev (lstrip (string_rev s)).

(** [s.strip()] *)
Definition py_strip (s : string) : string := rstrip (lstrip s).

(** [s.startswith(p)] *)
Definition startswith (s p : string) : bool := String.prefix p s.

(** [s.endswith(p)] *)
Definition endswith (s p : string) : bool :=
  let n := String.length s in
  let m := String.length p in
  (m <=? n)%nat && (substring (n - m) m s =? p)%string.

(** [str(n)] for an [int]. *)
Definition str_of_Z (n : Z) : string := NilZero.string_of_int (Z.to_int n).

(** [str(b)] for a [bool]. *)
Definition str_of_bool (b : bool) : string := if b then "True" else "False".

(** [l[:n]] *)
Definition slice_to {A : Type} (l : list A) (n : Z) : list A :=
  if 0 <=? n then firstn (Z.to_nat n) l
  else firstn (Z.to_nat (Z.of_nat (List.length l) + n)) l.

(** [s[:n]] for [n > 0] *)
Definition str_slice_to (s : string) (n : Z) : string :=
  substring 0 (Z.to_nat n) s.

(** ** Exceptions *)

Inductive exn : Type :=
| TypeError (msg : string)
| AttributeError (msg : string).

Inductive result (A : Type) : Type :=
| Ok (a : A)
| Raise (e : exn).

Arguments Ok {A} a.
Arguments Raise {A} e.

Definition rbind {A B : Type} (r : result A) (k : A -> result B) : result B :=
  match r with
  | Ok a => k a
  | Raise e => Raise e
  end.

(** ** [_pick_best_text_format] *)

Definition preferred_keys : list string :=
  [ "text/plain; charset=utf-8";
    "text/plain; charset=us-ascii";
    "text/plain";
    "text/html; charset=utf-8";
    "text/html" ].

(** [url.lower().endswith(".zip")] *)
Definition is_zip (url : string) : bool := endswith (py_lower url) ".zip".

(** The first loop: [for key in preferred_keys]. *)
Fixpoint pick_preferred (keys : list string) (formats : pydict) : option string :=
  match keys with
  | [] => None
  | key :: rest =>
      match py_get key formats with
      | PStr url =>
          if truthy (PStr url) && negb (is_zip url) then Some url
          else pick_preferred rest formats
      | _ => pick_preferred rest formats
      end
  end.

(** The second loop: [for key, url in formats.items()]. *)
Fixpoint pick_fallback (items : pydict) : option string :=
  match items with
  | [] => None
  | (key, PStr url) :: rest =>
      if startswith key "text/" && negb (is_zip url) then Some url
      else pick_fallback rest
  | _ :: rest => pick_fallback rest
  end.

Definition no_attribute (v : pyval) (attr : string) : exn :=
  AttributeError ("'" ++ type_name v ++ "' object has no attribute '" ++ attr ++ "'").

Definition _pick_best_text_format (formats : pyval) : result pyval :=
  if negb (truthy formats) then Ok PNone
  else
    match formats with
    | PDict d =>
        match pick_preferred preferred_keys d with
        | Some url => Ok (PStr url)
        | None =>
            match pick_fallback d with
            | Some url => Ok (PStr url)
            | None => Ok PNone
            end
        end
    | _ => Raise (no_attribute formats "get")
    end.

(** ** [str()] and [repr()] *)

Definition dquote : ascii := ascii_of_N 34.
Definition squote : ascii := ascii_of_N 39.
Definition backslash : ascii := ascii_of_N 92.

Definition str1 (c : ascii) : string := String c EmptyString.

Fixpoint str_contains (c : ascii) (s : string) : bool :=
  match s with
  | EmptyString => false
  | String c' rest => (c' =? c)%char || str_contains c rest
  end.

Definition hex_digit (n : N) : ascii :=
  if (n <? 10)%N then ascii_of_N (48 + n) else ascii_of_N (87 + n).

Definition hex2 (c : ascii) : string :=
  let n := char_code c in
  String (hex_digit (n / 16)) (String (hex_digit (n mod 16)) EmptyString).

(** One character of [repr(s)], inside the quotes [q]. *)
Definition repr_char (q c : ascii) : string :=
  let n := char_code c in
  if ((c =? q)%char || (c =? backslash)%char) then String backslash (str1 c)
  else if (n =? 9)%N then String backslash "t"
  else if (n =? 10)%N then String backslash "n"
  else if (n =? 13)%N then String backslash "r"
  else if ((n <? 32) || (n =? 127))%N then String backslash ("x" ++ hex2 c)
  else if (n <? 127)%N then str1 c
  else if (((128 <=? n) && (n <=? 160)) || (n =? 173))%N
       then String backslash ("x" ++ hex2 c)
  else str1 c.

Fixpoint repr_chars (q : ascii) (s : string) : string :=
  match s with
  | EmptyString => EmptyString
  | String c rest => repr_char q c ++ repr_chars q rest
  end.

(** [repr(s)] for a [str]: single quotes, unless [s] has one and no double
    quote. *)
Definition repr_str (s : string) : string :=
  let q := if str_contains squote s && negb (str_contains dquote s)
           then dquote else squote in
  String q (repr_chars q s ++ str1 q).

Fixpoint join (sep : string) (l : list string) : string :=
  match l with
  | [] => EmptyString
  | [s] => s
  | s :: rest => s ++ sep ++ join sep rest
  end.

Section Lookup.

(** [repr] of a [float]: the shortest decimal text that reads back as the
    same float.  It is left as a parameter. *)
Variable float_repr : spec_float -> string.

Fixpoint py_repr (v : pyval) : string :=
  match v with
  | PNone => "None"
  | PBool b => str_of_bool b
  | PInt n => str_of_Z n
  | PFloat f => float_repr f
  | PStr s => repr_str s
  | PList l => "[" ++ join ", " (map py_repr l) ++ "]"
  | PDict d =>
      "{" ++ join ", " (map (fun kv => repr_str (fst kv) ++ ": " ++ py_repr (snd kv)) d) ++ "}"
  end.

(** [str(v)] *)
Definition py_str (v : pyval) : string :=
  match v with
  | PStr s => s
  | _ => py_repr v
  end.

(** ** Remote calls *)

(** What the search endpoint does with one request. *)
Inductive search_outcome : Type :=
| SearchHttpError (exc : string)  (* [requests.get] or [raise_for_status] raised [exc] *)
| SearchBadJson (exc : string)    (* [response.json()] raised [exc] *)
| SearchJson (data : pyval).      (* [response.json()] returned [data] *)

(** What a text download does. *)
Inductive fetch_outcome : Type :=
| FetchHttpError (exc : string)   (* [requests.get] or [raise_for_status] raised [exc] *)
| FetchText (text : string).      (* [resp.text] *)

(** The remote side during one invocation.  A search is identified by the
    position of its query among the cleaned titles, a download by that
    position and the position of the record in the kept slice: each such
    call site is run at most once, so the oracle may answer the same search
    term or URL differently at different sites.

    The last two fields are the timing of the invocation, which only shows
    when handlers raise: [raised_first] tells which of the raising handlers
    raises first in time (its rank among them, modulo their number), and
    [calls_before_raise i] how many of its calls the handler at position
    [i], when it is not that one, gets to make (the others of its calls are
    never made: the handler is cancelled, or its job is still queued when
    the run ends). *)
Record remote : Type := {
  gutendex : nat -> string -> search_outcome;
  download : nat -> nat -> string -> fetch_outcome;
  raised_first : nat;
  calls_before_raise : nat -> nat
}.

Inductive call : Type :=
| SearchCall (term : string)
| DownloadCall (url : string).

(** A computation that logs its remote calls and returns or raises. *)
Definition io (A : Type) : Type := (list call * result A)%type.

Definition ret {A : Type} (a : A) : io A := ([], Ok a).

Definition throw {A : Type} (e : exn) : io A := ([], Raise e).

Definition lift {A : Type} (r : result A) : io A := ([], r).

Definition bind {A B : Type} (m : io A) (k : A -> io B) : io B :=
  match m with
  | (log, Ok a) => let (log', r) := k a in ((log ++ log')%list, r)
  | (log, Raise e) => (log, Raise e)
  end.

Definition calls {A : Type} (m : io A) : list call := fst m.
Definition outcome {A : Type} (m : io A) : result A := snd m.

Notation "x <- m ;; k" := (bind m (fun x => k))
  (at level 61, m at next level, right associativity).
Notation "' p <- m ;; k" := (bind m (fun x => let p := x in k))
  (at level 61, p pattern, m at next level, right associativity).

Variable net : remote.

(** ** [_search_gutendex] *)

Definition _search_gutendex (site : nat) (title : string) (max_results : Z)
  : io (list pyval * pyval) :=
  _ <- (([SearchCall title], Ok tt) : io unit) ;;
  match gutendex net site title with
  | SearchHttpError exc =>
      ret ([], PStr ("HTTP error while querying Gutendex: " ++ exc))
  | SearchBadJson exc =>
      ret ([], PStr ("Failed to decode JSON response from Gutendex: " ++ exc))
  | SearchJson data =>
      match data with
      | PDict d =>
          match py_get_default "results" d (PList []) with
          | PList results => ret (slice_to results max_results, PNone)
          | _ => ret ([], PStr "Unexpected Gutendex response format: 'results' is not a list")
          end
      | _ => throw (no_attribute data "get")
      end
  end.

(** ** [_download_text] *)

Definition _download_text (site : nat * nat) (url : string) (max_chars : option Z)
  : io (pyval * pyval) :=
  _ <- (([DownloadCall url], Ok tt) : io unit) ;;
  match download net (fst site) (snd site) url with
  | FetchHttpError exc =>
      ret (PNone, PStr ("HTTP error while downloading text: " ++ exc))
  | FetchText text =>
      match max_chars with
      | Some n =>
          if (0 <? n) && (n <? Z.of_nat (String.length text))
          then ret (PStr (str_slice_to text n), PNone)
          else ret (PStr text, PNone)
      | None => ret (PStr text, PNone)
      end
  end.

(** ** [_normalize_book] *)

(** [for x in v]: the items a [for] loop over [v] visits. *)
Definition py_iter (v : pyval) : result (list pyval) :=
  match v with
  | PList l => Ok l
  | PStr s => Ok (map (fun c => PStr (str1 c)) (list_ascii_of_string s))
  | PDict d => Ok (map PStr (dict_keys d))
  | _ => Raise (TypeError ("'" ++ type_name v ++ "' object is not iterable"))
  end.

(** The loop over [raw_authors]. *)
Fixpoint collect_authors (raw_authors : list pyval) : list pyval :=
  match raw_authors with
  | [] => []
  | PDict author :: rest =>
      PDict [ ("name", py_get "name" author);
              ("birth_year", py_get "birth_year" author);
              ("death_year", py_get "death_year" author) ]
      :: collect_authors rest
  | _ :: rest => collect_authors rest
  end.

Definition ebooks_prefix : string := "https://www.gutenberg.org/ebooks/".

Definition _normalize_book (site : nat * nat) (book : pydict)
    (download_text : bool) (max_chars : option Z) : io pyval :=
  let book_id := py_get "id" book in
  let title := py_get "title" book in
  let languages := py_or (py_get "languages" book) (PList []) in
  let download_count := py_get "download_count" book in
  let subjects := py_or (py_get "subjects" book) (PList []) in
  let bookshelves := py_or (py_get "bookshelves" book) (PList []) in
  let copyright_ := py_get "copyright" book in
  let formats := py_or (py_get "formats" book) (PDict []) in
  let raw_authors := py_or (py_get "authors" book) (PList []) in
  items <- lift (py_iter raw_authors) ;;
  let authors := collect_authors items in
  let gutenberg_url :=
    if isinstance_int book_id then PStr (ebooks_prefix ++ py_str book_id)
    else PNone in
  text_url <- lift (_pick_best_text_format formats) ;;
  ' (text, text_error) <-
    match text_url with
    | PStr url =>
        if download_text && truthy text_url
        then _download_text site url max_chars
        else ret (PNone, PNone)
    | _ => ret (PNone, PNone)
    end ;;
  let normalized :=
    [ ("id", book_id);
      ("title", title);
      ("authors", PList authors);
      ("languages", languages);
      ("download_count", download_count);
      ("subjects", subjects);
      ("bookshelves", bookshelves);
      ("copyright", copyright_);
      ("gutenberg_url", gutenberg_url);
      ("text_url", text_url) ] in
  let normalized :=
    if download_text then
      let normalized := dict_set "text" text normalized in
      if truthy text_error then dict_set "text_error" text_error normalized
      else normalized
    else normalized in
  ret (PDict normalized).

(** ** [search_gutenberg] *)

(** The loop of [handle_single_title] over [raw_results]; [j] is the
    position of [book] in the slice. *)
Fixpoint normalize_all (i j : nat) (raw_results : list pyval)
    (download_text : bool) (max_chars : option Z) : io (list pyval) :=
  match raw_results with
  | [] => ret []
  | PDict book :: rest =>
      m <- _normalize_book (i, j) book download_text max_chars ;;
      ms <- normalize_all i (S j) rest download_text max_chars ;;
      ret (m :: ms)
  | _ :: rest => normalize_all i (S j) rest download_text max_chars
  end.

Definition handle_single_title (max_results_per_title : Z) (download_text : bool)
    (max_chars : option Z) (i : nat) (q : string) : io pyval :=
  ' (raw_results, error) <- _search_gutendex i q max_results_per_title ;;
  match_dicts <-
    (if truthy (PList raw_results)
     then normalize_all i 0 raw_results download_text max_chars
     else ret []) ;;
  let entry := [ ("query", PStr q); ("matches", PList match_dicts) ] in
  let entry := if truthy error then dict_set "error" error entry else entry in
  ret (PDict entry).

(** The values of the tasks that return, in the order of the tasks. *)
Fixpoint gather_returned {A : Type} (tasks : list (io A)) : list A :=
  match tasks with
  | [] => []
  | (_, Ok a) :: rest => a :: gather_returned rest
  | (_, Raise _) :: rest => gather_returned rest
  end.

(** The tasks that raise, each with its position (counted from [i]) and
    its exception, in the order of the tasks. *)
Fixpoint gather_raised {A : Type} (i : nat) (tasks : list (io A)) : list (nat * exn) :=
  match tasks with
  | [] => []
  | (_, Ok _) :: rest => gather_raised (S i) rest
  | (_, Raise e) :: rest => (i, e) :: gather_raised (S i) rest
  end.

(** The calls made when the task at position [first] is the first to
    raise: all of its own, up to its raise, and of the task at any other
    position [i] the first [calls_before_raise i]. *)
Fixpoint calls_until_raise {A : Type} (first i : nat) (tasks : list (io A)) : list call :=
  match tasks with
  | [] => []
  | (log, _) :: rest =>
      ((if (i =? first)%nat then log else firstn (calls_before_raise net i) log)
       ++ calls_until_raise first (S i) rest)%list
  end.

(** [await asyncio.gather] over [tasks].  When every task returns, every
    call was made and the results come back in the order of [tasks].  When
    tasks raise, [gather] raises the exception that is raised first in time,
    and the other tasks are left where the timing of the run left them. *)
Definition gather {A : Type} (tasks : list (io A)) : io (list A) :=
  match gather_raised 0 tasks with
  | [] => (List.concat (map calls tasks), Ok (gather_returned tasks))
  | r :: rs =>
      let (first, e) := nth (raised_first net mod S (List.length rs)) (r :: rs) r in
      (calls_until_raise first 0 tasks, Raise e)
  end.

(** [enumerate(l)] *)
Definition enumerate {A : Type} (l : list A) : list (nat * A) :=
  combine (seq 0 (List.length l)) l.

(** [[t for t in (str(t).strip() for t in titles) if t]] *)
Definition clean_titles (titles : list pyval) : list string :=
  filter (fun t => truthy (PStr t)) (map (fun t => py_strip (py_str t)) titles).

Definition search_gutenberg (titles : pyval) (max_results_per_title : Z)
    (download_text : bool) (max_chars : option Z) : io pyval :=
  match titles with
  | PList ts =>
      let cleaned_titles := clean_titles ts in
      if negb (truthy (PList (map PStr cleaned_titles)))
      then ret (PDict [ ("results", PList []) ])
      else
        let max_results_per_title :=
          if max_results_per_title <=? 0 then 1 else max_results_per_title in
        let tasks :=
          map (fun iq => handle_single_title max_results_per_title download_text
                           max_chars (fst iq) (snd iq))
              (enumerate cleaned_titles) in
        results <- gather tasks ;;
        ret (PDict [ ("results", PList results) ])
  | _ => throw (TypeError "titles must be a list of strings")
  end.

End Lookup.

(** * The command-line front end, [cli.py] *)

(** [s.replace(a, b)] for one-character [a] and [b]. *)
Fixpoint replace_char (a b : ascii) (s : string) : string :=
  match s with
  | EmptyString => EmptyString
  | String c rest =>
      String (if (c =? a)%char then b else c) (replace_char a b rest)
  end.

(** [s.split(sep)] for a one-character [sep]; the result is never empty. *)
Fixpoint split_char (sep : ascii) (s : string) : list string :=
  match s with
  | EmptyString => [EmptyString]
  | String c rest =>
      if (c =? sep)%char then EmptyString :: split_char sep rest
      else
        match split_char sep rest with
        | chunk :: chunks => String c chunk :: chunks
        | [] => [str1 c]
        end
  end.

(** The loop of [prompt_for_titles] over the chunks. *)
Fixpoint collect_titles (chunks : list string) : list string :=
  match chunks with
  | [] => []
  | chunk :: rest =>
      let title := py_strip chunk in
      if truthy (PStr title) then title :: collect_titles rest
      else collect_titles rest
  end.

(** [prompt_for_titles], as a function of the line that [input] returned. *)
Definition prompt_for_titles (typed : string) : list string :=
  let raw := py_strip typed in
  if negb (truthy (PStr raw)) then []
  else collect_titles (split_char "," (replace_char ";" "," raw)).

(** * The tool of the reading-list app, [reading_list_app.py] *)

(** The exceptions of the app: those of the lookup, and the two more that
    [int] raises. *)
Inductive app_exn : Type :=
| Builtin (e : exn)
| ValueError (msg : string)
| OverflowError (msg : string).

Inductive app_result (A : Type) : Type :=
| Returned (a : A)
| Raised (e : app_exn).

Arguments Returned {A} a.
Arguments Raised {A} e.

(** [int(f)] for a [float]: the integer part, towards zero. *)
Definition int_of_float (f : spec_float) : app_result Z :=
  match f with
  | S754_zero _ => Returned 0
  | S754_infinity _ =>
      Raised (OverflowError "cannot convert float infinity to integer")
  | S754_nan => Raised (ValueError "cannot convert float NaN to integer")
  | S754_finite s m e =>
      let magnitude :=
        if 0 <=? e then Z.pos m * 2 ^ e else Z.pos m / 2 ^ (- e) in
      Returned (if s then - magnitude else magnitude)
  end.

(** [{**a, **b}]: the keys of [a] keep their place, those new in [b]
    follow. *)
Definition dict_merge (a b : pydict) : pydict :=
  fold_left (fun acc kv => dict_set (fst kv) (snd kv) acc) b a.

(** [arguments or "{}"] *)
Definition raw_args_of (arguments : option string) : string :=
  match arguments with
  | Some s => if truthy (PStr s) then s else "{}"
  | None => "{}"
  end.

Section App.

Variable float_repr : spec_float -> string.
Variable net : remote.

(** [int(s)] for a [str], [None] when it raises [ValueError]; and
    [json.loads], [None] when it raises [JSONDecodeError].  Both are left as
    parameters. *)
Variable int_of_str : string -> option Z.
Variable json_loads : string -> option pyval.

(** [int(v)] *)
Definition py_int (v : pyval) : app_result Z :=
  match v with
  | PInt n => Returned n
  | PBool b => Returned (if b then 1 else 0)
  | PFloat f => int_of_float f
  | PStr s =>
      match int_of_str s with
      | Some n => Returned n
      | None =>
          Raised (ValueError ("invalid literal for int() with base 10: " ++ repr_str s))
      end
  | _ =>
      Raised (Builtin (TypeError
        ("int() argument must be a string, a bytes-like object or a real number, not '"
         ++ type_name v ++ "'")))
  end.

Definition call_search_gutenberg_tool (args : pydict)
  : list call * app_result pyval :=
  let titles := py_or (py_get "titles" args) (PList []) in
  match py_int (py_get_default "max_results_per_title" args (PInt 3)) with
  | Raised e => ([], Raised e)
  | Returned max_results_per_title =>
      let download_text :=
        truthy (py_get_default "download_text" args (PBool false)) in
      let max_chars := py_get_default "max_chars" args (PInt 20000) in
      match
        match max_chars with
        | PNone => Returned None
        | _ =>
            match py_int max_chars with
            | Returned n => Returned (Some n)
            | Raised e => Raised e
            end
        end
      with
      | Raised e => ([], Raised e)
      | Returned max_chars =>
          let (log, r) :=
            search_gutenberg float_repr net titles max_results_per_title
              download_text max_chars in
          (log, match r with
                | Ok response => Returned response
                | Raise e => Raised (Builtin e)
                end)
      end
  end.

(** The body of the loop of [main] over the tool calls, up to
    [tool_result]; the two flags are [args.download_text] and
    [args.max_chars] of the command line. *)
Definition tool_result (cli_download_text : bool) (cli_max_chars : Z)
    (name : string) (arguments : option string) : list call * app_result pyval :=
  let raw_args := raw_args_of arguments in
  let parsed_args :=
    match json_loads raw_args with
    | Some v => v
    | None => PDict []
    end in
  if (name =? "search_gutenberg")%string then
    let tool_call_defaults :=
      [ ("download_text", PBool cli_download_text);
        ("max_chars", PInt cli_max_chars) ] in
    match parsed_args with
    | PDict parsed => call_search_gutenberg_tool (dict_merge tool_call_defaults parsed)
    | _ =>
        ([], Raised (Builtin (TypeError
               ("'" ++ type_name parsed_args ++ "' object is not a mapping"))))
    end
  else ([], Returned (PDict [ ("error", PStr ("Unknown tool " ++ name)) ])).

End App.

(** * Vocabulary of the properties *)

(** ** A record on its way through [_normalize_book] *)

(** The values [_normalize_book] reads off a record before it loops. *)
Definition formats_of (book : pydict) : pyval :=
  py_or (py_get "formats" book) (PDict []).

Definition raw_authors_of (book : pydict) : pyval :=
  py_or (py_get "authors" book) (PList []).

(** The ten fields every match has, in the order of the dict display of
    [_normalize_book]; [items] are the items of the loop over the authors. *)
Definition core_fields (float_repr : spec_float -> string) (book : pydict)
    (items : list pyval) (text_url : pyval) : pydict :=
  [ ("id", py_get "id" book);
    ("title", py_get "title" book);
    ("authors", PList (collect_authors items));
    ("languages", py_or (py_get "languages" book) (PList []));
    ("download_count", py_get "download_count" book);
    ("subjects", py_or (py_get "subjects" book) (PList []));
    ("bookshelves", py_or (py_get "bookshelves" book) (PList []));
    ("copyright", py_get "copyright" book);
    ("gutenberg_url",
     if isinstance_int (py_get "id" book)
     then PStr (ebooks_prefix ++ py_str float_repr (py_get "id" book))
     else PNone);
    ("text_url", text_url) ].

(** Values a [for] loop accepts, or that [or] replaces by the default. *)
Definition iterable_or_falsy (v : pyval) : Prop :=
  truthy v = false \/ is_list v = true \/ is_str v = true \/ is_dict v = true.

(** Values [.get] can be called on, or that [or] replaces by the default. *)
Definition mapping_or_falsy (v : pyval) : Prop :=
  truthy v = false \/ is_dict v = true.

(** One entry of [authors] in a match. *)
Definition author_shaped (a : pyval) : Prop :=
  exists name birth death,
    a = PDict [ ("name", name); ("birth_year", birth); ("death_year", death) ].

(** A field carries no value: [m.get(k) is None]. *)
Definition absent (k : string) (m : pydict) : Prop := py_get k m = PNone.

(** The key does not appear at all: [k not in m]. *)
Definition no_key (k : string) (m : pydict) : Prop := dict_get k m = None.

(** The text kept of a downloaded body, in the words of the specification:
    the first [max_chars] characters when [max_chars] is positive, the whole
    body otherwise. *)
Definition spec_truncate (max_chars : option Z) (body : string) : string :=
  match max_chars with
  | Some n => if 0 <? n then substring 0 (Z.to_nat n) body else body
  | None => body
  end.

(** ** The selection of [text_url] *)

(** A URL the loop over [preferred_keys] returns when it reaches key [k]:
    a non-empty [str] that does not end in ".zip" once lowercased. *)
Definition preferred_hit (formats : pydict) (k url : string) : Prop :=
  dict_get k formats = Some (PStr url) /\ url <> "" /\ is_zip url = false.

(** An item the loop over [formats.items()] returns: a [str] (the empty one
    too) under a key that starts with "text/", not ending in ".zip" once
    lowercased. *)
Definition fallback_hit (kv : string * pyval) (url : string) : Prop :=
  snd kv = PStr url /\ startswith (fst kv) "text/" = true /\ is_zip url = false.

(** The selection in the words of the specification: any present string
    value, and the suffix ".zip" compared as written. *)
Fixpoint spec_pick_preferred (keys : list string) (formats : pydict) : option string :=
  match keys with
  | [] => None
  | key :: rest =>
      match dict_get key formats with
      | Some (PStr url) =>
          if negb (endswith url ".zip") then Some url
          else spec_pick_preferred rest formats
      | _ => spec_pick_preferred rest formats
      end
  end.

Fixpoint spec_pick_fallback (items : pydict) : option string :=
  match items with
  | [] => None
  | (key, PStr url) :: rest =>
      if startswith key "text/" && negb (endswith url ".zip") then Some url
      else spec_pick_fallback rest
  | _ :: rest => spec_pick_fallback rest
  end.

Definition spec_text_url (formats : pydict) : pyval :=
  match spec_pick_preferred preferred_keys formats with
  | Some url => PStr url
  | None =>
      match spec_pick_fallback formats with
      | Some url => PStr url
      | None => PNone
      end
  end.

(** ** Searches *)

Definition is_search_call (c : call) : bool :=
  match c with SearchCall _ => true | DownloadCall _ => false end.

(** The exception [search_gutenberg] raises on a [titles] that is not a
    list. *)
Definition invalid_argument : exn := TypeError "titles must be a list of strings".

(** The exceptions that the data of the remote side can set off: [.get] on
    a value that is not a mapping, [for] over a value that is not iterable. *)
Definition raised_on_remote_data (e : exn) : Prop :=
  exists v,
    e = no_attribute v "get" \/
    e = TypeError ("'" ++ type_name v ++ "' object is not iterable").

(** The search of one query failed in a way [_search_gutendex] reports:
    transport or status error (timeouts included), undecodable body, or a
    JSON object whose "results" is not a list. *)
Definition search_fails (o : search_outcome) : Prop :=
  match o with
  | SearchHttpError _ | SearchBadJson _ => True
  | SearchJson (PDict d) =>
      exists v, dict_get "results" d = Some v /\ is_list v = false
  | SearchJson _ => False
  end.

(** The text of the "error" field after a failed search. *)
Definition search_error_text (o : search_outcome) : string :=
  match o with
  | SearchHttpError exc => "HTTP error while querying Gutendex: " ++ exc
  | SearchBadJson exc => "Failed to decode JSON response from Gutendex: " ++ exc
  | SearchJson _ => "Unexpected Gutendex response format: 'results' is not a list"
  end.

(** No character of [s] is white space. *)
Fixpoint all_nonspace (s : string) : bool :=
  match s with
  | EmptyString => true
  | String c rest => negb (py_isspace c) && all_nonspace rest
  end.

(** ** Shapes of the response *)

(** The entry of "results" for the query [q] whose search came back as
    [o]: after a failed search the query, no match and the error text of that
    failure; otherwise the query and a list of matches, and no "error". *)
Definition entry_for (q : string) (o : search_outcome) (e : pyval) : Prop :=
  (search_fails o /\
   e = PDict [ ("query", PStr q); ("matches", PList []);
               ("error", PStr (search_error_text o)) ])
  \/ (~ search_fails o /\
      exists matches,
        e = PDict [ ("query", PStr q); ("matches", PList matches) ]).

(** [entry["matches"]] of a well-formed entry. *)
Definition matches_of (e : pyval) : list pyval :=
  match e with
  | PDict d => match py_get "matches" d with PList l => l | _ => [] end
  | _ => []
  end.

Definition core_keys : list string :=
  [ "id"; "title"; "authors"; "languages"; "download_count"; "subjects";
    "bookshelves"; "copyright"; "gutenberg_url"; "text_url" ].

(** The keys of a match: the ten core keys, then "text" when the download
    was requested, then "text_error" when a download failed. *)
Definition match_keyed (download_text : bool) (m : pyval) : Prop :=
  exists d,
    m = PDict d /\
    (dict_keys d = (core_keys ++ (if download_text then ["text"] else []))%list \/
     (download_text = true /\
      dict_keys d = (core_keys ++ ["text"; "text_error"])%list)).

(** The author entry made of one object of the raw "authors". *)
Definition author_entry (a : pyval) : pyval :=
  match a with
  | PDict author =>
      PDict [ ("name", py_get "name" author);
              ("birth_year", py_get "birth_year" author);
              ("death_year", py_get "death_year" author) ]
  | _ => PNone
  end.

(** ** Titles typed at the prompt *)

(** A title that can be typed between separators and read back: not empty,
    no white space at either end, no comma and no semicolon. *)
Definition title_clean (t : string) : Prop :=
  t <> "" /\ py_strip t = t /\
  str_contains "," t = false /\ str_contains ";" t = false.

(** ** The tool call of the app *)

(** The outcome of the lookup, as the app sees it. *)
Definition lift_lookup (m : io pyval) : list call * app_result pyval :=
  (calls m,
   match outcome m with
   | Ok response => Returned response
   | Raise e => Raised (Builtin e)
   end).

(** The [max_chars] that a tool call with the decoded arguments [parsed]
    passes on: the one of the arguments when the key is there ([None] for
    null), the one of the command line otherwise. *)
Definition chosen_max_chars (int_of_str : string -> option Z) (parsed : pydict)
    (cli_max_chars : Z) : app_result (option Z) :=
  match py_get_default "max_chars" parsed (PInt cli_max_chars) with
  | PNone => Returned None
  | v =>
      match py_int int_of_str v with
      | Returned n => Returned (Some n)
      | Raised e => Raised e
      end
  end.

(** ** Fixtures of the concrete runs *)

Definition float_repr0 : spec_float -> string := fun _ => "0.0".

(** Every request fails. *)
Definition net_down : remote :=
  {| gutendex := fun _ _ => SearchHttpError "connection refused";
     download := fun _ _ _ => FetchHttpError "connection refused";
     raised_first := 0;
     calls_before_raise := fun _ => 0%nat |}.

Definition demo_book : pyval :=
  PDict [ ("id", PInt 1661);
          ("title", PStr "The Adventures of Sherlock Holmes");
          ("formats", PDict [ ("text/plain", PStr "http://x/1661.txt") ]) ].

(** The search for "a" fails, every other search finds three raw entries;
    downloads at the first record give a twenty-character body and fail
    elsewhere. *)
Definition net_demo : remote :=
  {| gutendex := fun _ q =>
       if (q =? "a")%string then SearchHttpError "timed out"
       else SearchJson (PDict [ ("results", PList [demo_book; PInt 3; demo_book]) ]);
     download := fun _ j _ =>
       match j with
       | O => FetchText "0123456789abcdefghij"
       | _ => FetchHttpError "404 Client Error"
       end;
     raised_first := 0;
     calls_before_raise := fun _ => 1%nat |}.

(** The entries returned for the single title "b" on [net_demo], with
    [max_results_per_title = 0] and no download. *)
Definition demo_results : list pyval :=
  Eval vm_compute in
    match outcome (search_gutenberg float_repr0 net_demo (PList [PStr "b"]) 0 false None) with
    | Ok (PDict [ (_, PList results) ]) => results
    | _ => []
    end.

(** The search for "x" answers with a JSON array, the one for "e" with an
    empty object, the one for "m" with a record whose "formats" is a string;
    every other search finds [demo_book] alone. *)
Definition net_odd : remote :=
  {| gutendex := fun _ q =>
       if (q =? "x")%string then SearchJson (PList [])
       else if (q =? "e")%string then SearchJson (PDict [])
       else if (q =? "m")%string then
         SearchJson (PDict [ ("results", PList [ PDict [ ("formats", PStr "abc") ] ]) ])
       else SearchJson (PDict [ ("results", PList [demo_book]) ]);
     download := download net_demo;
     raised_first := 1;
     calls_before_raise := fun i => i |}.

Definition int_of_str0 : string -> option Z := fun _ => None.

(** A decoder that knows two texts. *)
Definition json_loads0 : string -> option pyval :=
  fun s =>
    if (s =? "{}")%string then Some (PDict [])
    else if (s =? "b, no text")%string then
      Some (PDict [ ("titles", PList [PStr "b"]); ("download_text", PBool false) ])
    else None.

(** * Properties *)

(** ** Evaluation on concrete inputs *)

Example pick_txt_over_html :
  _pick_best_text_format
    (PDict [("text/html", PStr "B.html"); ("text/plain; charset=utf-8", PStr "A.txt")])
  = Ok (PStr "A.txt").
Proof. reflexivity. Qed.

Example pick_skips_zip :
  _pick_best_text_format
    (PDict [("text/plain; charset=utf-8", PStr "A.zip"); ("text/html", PStr "B.html")])
  = Ok (PStr "B.html").
Proof. reflexivity. Qed.

Example str_of_Z_examples :
  str_of_Z 1661 = "1661" /\ str_of_Z 0 = "0" /\ str_of_Z (-5) = "-5".
Proof. repeat split; reflexivity. Qed.

Example strip_examples :
  py_strip "  Dracula   " = "Dracula" /\ py_strip "   " = "" /\ py_strip " a b " = "a b".
Proof. repeat split; reflexivity. Qed.

(** ** Stripping *)

Lemma string_app_nil_r (s : string) : s ++ "" = s.
Proof. induction s as [| c s IH]; simpl; [reflexivity | now rewrite IH]. Qed.

Lemma string_app_assoc (a b c : string) : (a ++ b) ++ c = a ++ (b ++ c).
Proof. induction a as [| x a IH]; simpl; [reflexivity | now rewrite IH]. Qed.

Lemma string_rev_app (a b : string) :
  string_rev (a ++ b) = string_rev b ++ string_rev a.
Proof.
  induction a as [| c a IH]; simpl.
  - now rewrite string_app_nil_r.
  - now rewrite IH, string_app_assoc.
Qed.

Lemma string_rev_involutive (s : string) : string_rev (string_rev s) = s.
Proof.
  induction s as [| c s IH]; simpl; [reflexivity |].
  now rewrite string_rev_app, IH.
Qed.

Lemma lstrip_head (s : string) (c : ascii) (rest : string) :
  lstrip s = String c rest -> py_isspace c = false.
Proof.
  induction s as [| d s IH]; simpl; [discriminate |].
  destruct (py_isspace d) eqn:Hd; [exact IH |].
  now intros [= <- _].
Qed.

Lemma lstrip_idempotent (s : string) : lstrip (lstrip s) = lstrip s.
Proof.
  induction s as [| c s IH]; simpl; [reflexivity |].
  destruct (py_isspace c) eqn:Hc; [exact IH |].
  simpl. now rewrite Hc.
Qed.

Lemma lstrip_snoc (s : string) (c : ascii) :
  py_isspace c = false -> lstrip (s ++ str1 c) = lstrip s ++ str1 c.
Proof.
  intros Hc. induction s as [| d s IH]; simpl.
  - now rewrite Hc.
  - destruct (py_isspace d); [exact IH | reflexivity].
Qed.

Lemma rstrip_cons (c : ascii) (s : string) :
  py_isspace c = false -> rstrip (String c s) = String c (rstrip s).
Proof.
  intros Hc. unfold rstrip. simpl.
  fold (str1 c). rewrite (lstrip_snoc _ _ Hc), string_rev_app. reflexivity.
Qed.

Lemma rstrip_idempotent (s : string) : rstrip (rstrip s) = rstrip s.
Proof.
  unfold rstrip. now rewrite string_rev_involutive, lstrip_idempotent.
Qed.

(** [s.strip()] has no white space left at either end, and stripping it
    again changes nothing. *)
Lemma py_strip_trimmed (s : string) :
  lstrip (py_strip s) = py_strip s /\ rstrip (py_strip s) = py_strip s.
Proof.
  unfold py_strip. split; [| apply rstrip_idempotent].
  destruct (lstrip s) as [| c rest] eqn:Hs; [reflexivity |].
  pose proof (lstrip_head _ _ _ Hs) as Hc.
  rewrite (rstrip_cons _ _ Hc). simpl. now rewrite Hc.
Qed.

Lemma py_strip_idempotent (s : string) : py_strip (py_strip s) = py_strip s.
Proof.
  destruct (py_strip_trimmed s) as [Hl Hr].
  unfold py_strip at 1. now rewrite Hl, Hr.
Qed.

Lemma lstrip_app (u v : string) :
  lstrip u <> "" -> lstrip (u ++ v) = lstrip u ++ v.
Proof.
  induction u as [| c u IH]; simpl; [congruence |].
  destruct (py_isspace c); [exact IH | reflexivity].
Qed.

Lemma string_rev_nonempty (s : string) : s <> "" -> string_rev s <> "".
Proof.
  intros Hs H. apply Hs. rewrite <- (string_rev_involutive s), H. reflexivity.
Qed.

Lemma rstrip_app (a b : string) :
  rstrip b <> "" -> rstrip (a ++ b) = a ++ rstrip b.
Proof.
  intros Hb. unfold rstrip in *.
  rewrite string_rev_app, lstrip_app.
  - now rewrite string_rev_app, string_rev_involutive.
  - intros H. apply Hb. now rewrite H.
Qed.

Lemma all_nonspace_app (a b : string) :
  all_nonspace (a ++ b) = all_nonspace a && all_nonspace b.
Proof.
  induction a as [| c a IH]; simpl; [reflexivity |].
  now rewrite IH, andb_assoc.
Qed.

Lemma all_nonspace_rev (s : string) : all_nonspace (string_rev s) = all_nonspace s.
Proof.
  induction s as [| c s IH]; simpl; [reflexivity |].
  rewrite all_nonspace_app, IH. simpl. rewrite andb_true_r. apply andb_comm.
Qed.

Lemma lstrip_nonspace (s : string) : all_nonspace s = true -> lstrip s = s.
Proof.
  destruct s as [| c s]; simpl; [reflexivity |].
  intros H. apply andb_prop in H as [Hc _]. apply negb_true_iff in Hc.
  now rewrite Hc.
Qed.

(** A text without white space is its own [strip()]. *)
Lemma py_strip_nonspace (s : string) : all_nonspace s = true -> py_strip s = s.
Proof.
  intros H. unfold py_strip, rstrip. rewrite (lstrip_nonspace s H).
  rewrite lstrip_nonspace by now rewrite all_nonspace_rev.
  apply string_rev_involutive.
Qed.

(** A text between two characters that are not white space is its own
    [strip()]. *)
Lemma py_strip_bracketed (c d : ascii) (x : string) :
  py_isspace c = false -> py_isspace d = false ->
  py_strip (String c (x ++ str1 d)) = String c (x ++ str1 d).
Proof.
  intros Hc Hd. unfold py_strip.
  assert (Hl : lstrip (String c (x ++ str1 d)) = String c (x ++ str1 d))
    by (simpl; now rewrite Hc).
  rewrite Hl.
  assert (Hr : rstrip (str1 d) = str1 d).
  { unfold rstrip, str1. simpl. now rewrite Hd. }
  change (String c (x ++ str1 d)) with (String c x ++ str1 d).
  rewrite rstrip_app; rewrite Hr; [reflexivity | discriminate].
Qed.

Lemma decimal_digits_nonspace (d : Decimal.uint) :
  all_nonspace (NilEmpty.string_of_uint d) = true.
Proof. induction d; simpl; auto. Qed.

Lemma str_of_Z_parses (n : Z) :
  NilZero.int_of_string (str_of_Z n) = Some (Z.to_int n).
Proof.
  unfold str_of_Z. destruct n as [| p | p].
  - reflexivity.
  - apply NilZero.isi; intros [= H]; now apply DecimalPos.Unsigned.to_uint_nonnil in H.
  - apply NilZero.isi; intros [= H]; now apply DecimalPos.Unsigned.to_uint_nonnil in H.
Qed.

Lemma str_of_Z_inj (a b : Z) : str_of_Z a = str_of_Z b -> a = b.
Proof.
  intros H. apply DecimalZ.to_int_inj.
  pose proof (str_of_Z_parses a) as Ha. rewrite H, str_of_Z_parses in Ha.
  now injection Ha.
Qed.

Lemma str_of_Z_nonempty (n : Z) : str_of_Z n <> "".
Proof.
  intros H. pose proof (str_of_Z_parses n) as Hp. rewrite H in Hp. discriminate Hp.
Qed.

(** The decimal text of an integer has no white space. *)
Lemma str_of_Z_nonspace (n : Z) : all_nonspace (str_of_Z n) = true.
Proof.
  unfold str_of_Z. destruct (Z.to_int n) as [d | d]; simpl.
  - destruct d; try apply decimal_digits_nonspace. reflexivity.
  - destruct d; try apply decimal_digits_nonspace. reflexivity.
Qed.

(** ** The [io] monad *)

Lemma outcome_bind {A B : Type} (m : io A) (k : A -> io B) :
  outcome (bind m k)
  = match outcome m with Ok a => outcome (k a) | Raise e => Raise e end.
Proof.
  destruct m as [log [a | e]]; simpl; [destruct (k a) | ]; reflexivity.
Qed.

Lemma calls_bind {A B : Type} (m : io A) (k : A -> io B) :
  calls (bind m k)
  = (calls m ++ match outcome m with Ok a => calls (k a) | Raise _ => [] end)%list.
Proof.
  destruct m as [log [a | e]]; simpl.
  - destruct (k a); reflexivity.
  - now rewrite app_nil_r.
Qed.

Lemma gather_raised_none {A : Type} (tasks : list (io A)) (s : nat) :
  gather_raised s tasks = [] ->
  Forall2 (fun t a => outcome t = Ok a) tasks (gather_returned tasks).
Proof.
  revert s; induction tasks as [| [log [a | e]] tasks IH]; simpl; intros s H.
  - constructor.
  - constructor; [reflexivity | now apply (IH (S s))].
  - discriminate.
Qed.

Lemma gather_all_returned {A : Type} (tasks : list (io A)) (l : list A) :
  Forall2 (fun t a => outcome t = Ok a) tasks l ->
  (forall s, gather_raised s tasks = []) /\ gather_returned tasks = l.
Proof.
  induction 1 as [| [log r] a ts l Ha _ [IH1 IH2]]; simpl in *; [now split |].
  subst r. split; [intros s; apply IH1 | now rewrite IH2].
Qed.

Lemma gather_raised_in {A : Type} (tasks : list (io A)) (s p : nat) (e : exn) :
  In (p, e) (gather_raised s tasks) ->
  exists i t, p = (s + i)%nat /\ nth_error tasks i = Some t /\ outcome t = Raise e.
Proof.
  revert s; induction tasks as [| [log [a | e']] tasks IH]; simpl; intros s;
    [intros [] | |].
  - intros H. destruct (IH _ H) as (i & t & -> & Hi & Ht).
    exists (S i), t. split; [lia | now split].
  - intros [[= <- <-] | H].
    + exists 0%nat, (log, Raise e'). split; [lia | now split].
    + destruct (IH _ H) as (i & t & -> & Hi & Ht).
      exists (S i), t. split; [lia | now split].
Qed.

Lemma outcome_gather_ok (net : remote) {A : Type} (tasks : list (io A)) (l : list A) :
  outcome (gather net tasks) = Ok l <-> Forall2 (fun t a => outcome t = Ok a) tasks l.
Proof.
  unfold gather. split.
  - destruct (gather_raised 0 tasks) as [| r rs] eqn:R.
    + intros [= <-]. now apply (gather_raised_none tasks 0).
    + destruct (nth _ _ _); discriminate.
  - intros H. apply gather_all_returned in H as [H <-]. now rewrite H.
Qed.

(** What [gather] raises is what one of the tasks raises, and then every
    call of that task is in the log. *)
Lemma gather_raise_first (net : remote) {A : Type} (tasks : list (io A)) (e : exn) :
  outcome (gather net tasks) = Raise e ->
  exists i t,
    nth_error tasks i = Some t /\ outcome t = Raise e /\
    calls (gather net tasks) = calls_until_raise net i 0 tasks.
Proof.
  unfold gather. destruct (gather_raised 0 tasks) as [| r rs] eqn:R; [discriminate |].
  assert (Hin : In (nth (raised_first net mod S (List.length rs)) (r :: rs) r)
                   (gather_raised 0 tasks)).
  { rewrite R. apply nth_In.
    change (List.length (r :: rs)) with (S (List.length rs)).
    apply Nat.mod_upper_bound. discriminate. }
  destruct (nth _ _ _) as [first e']. cbn [outcome calls fst snd].
  intros [= ->]. apply gather_raised_in in Hin as (i & t & -> & Hi & Ht).
  now exists i, t.
Qed.

Lemma outcome_gather_raise (net : remote) {A : Type} (tasks : list (io A)) (e : exn) :
  outcome (gather net tasks) = Raise e ->
  exists i t, nth_error tasks i = Some t /\ outcome t = Raise e.
Proof.
  intros H. apply gather_raise_first in H as (i & t & Hi & Ht & _). now exists i, t.
Qed.

Lemma outcome_gather_total (net : remote) {A : Type} (tasks : list (io A)) :
  (forall t, In t tasks -> exists a, outcome t = Ok a) ->
  exists l, outcome (gather net tasks) = Ok l.
Proof.
  induction tasks as [| t tasks IH]; intros H.
  - now exists [].
  - destruct (H t (or_introl eq_refl)) as [a Ha].
    destruct IH as [l Hl]; [intros; apply H; now right |].
    exists (a :: l). apply outcome_gather_ok. constructor; [exact Ha |].
    now apply outcome_gather_ok in Hl.
Qed.

(** When [gather] returns, every call of every task was made. *)
Lemma calls_gather_ok (net : remote) {A : Type} (tasks : list (io A)) (l : list A) :
  outcome (gather net tasks) = Ok l ->
  calls (gather net tasks) = List.concat (map calls tasks).
Proof.
  unfold gather. destruct (gather_raised 0 tasks); [reflexivity |].
  destruct (nth _ _ _); discriminate.
Qed.

Lemma calls_until_raise_length (net : remote) {A : Type} (tasks : list (io A))
    (first i : nat) :
  (List.length (calls_until_raise net first i tasks)
   <= List.length (List.concat (map calls tasks)))%nat.
Proof.
  revert i; induction tasks as [| [log r] tasks IH]; intros i; simpl; [lia |].
  rewrite !length_app. specialize (IH (S i)).
  pose proof (firstn_le_length (calls_before_raise net i) log) as H1.
  destruct (i =? first)%nat; [| rewrite length_firstn]; lia.
Qed.

(** In every case no call is made that no task makes. *)
Lemma calls_gather_length (net : remote) {A : Type} (tasks : list (io A)) :
  (List.length (calls (gather net tasks))
   <= List.length (List.concat (map calls tasks)))%nat.
Proof.
  unfold gather. destruct (gather_raised 0 tasks); cbn [calls fst]; [lia |].
  destruct (nth _ _ _). cbn [calls fst]. apply calls_until_raise_length.
Qed.

Lemma calls_until_raise_in (net : remote) {A : Type} (tasks : list (io A))
    (first i : nat) (c : call) :
  In c (calls_until_raise net first i tasks) ->
  In c (List.concat (map calls tasks)).
Proof.
  revert i; induction tasks as [| [log r] tasks IH]; intros i; simpl; [tauto |].
  rewrite !in_app_iff. intros [H | H].
  - left. destruct (i =? first)%nat; [exact H |].
    rewrite <- (firstn_skipn (calls_before_raise net i) log).
    apply in_or_app. now left.
  - right. now apply (IH (S i)).
Qed.

Lemma calls_gather_in (net : remote) {A : Type} (tasks : list (io A)) (c : call) :
  In c (calls (gather net tasks)) -> In c (List.concat (map calls tasks)).
Proof.
  unfold gather. destruct (gather_raised 0 tasks); cbn [calls fst]; [tauto |].
  destruct (nth _ _ _). cbn [calls fst]. apply calls_until_raise_in.
Qed.

(** The calls of the task that raised first are in the log. *)
Lemma calls_until_raise_first (net : remote) {A : Type} (tasks : list (io A))
    (s i : nat) (t : io A) (c : call) :
  nth_error tasks i = Some t -> In c (calls t) ->
  In c (calls_until_raise net (s + i) s tasks).
Proof.
  revert s i; induction tasks as [| [log r] tasks IH]; intros s i; simpl.
  - destruct i; discriminate.
  - destruct i as [| i]; simpl.
    + intros [= <-] Hc. rewrite Nat.add_0_r, Nat.eqb_refl.
      apply in_or_app. now left.
    + intros Hi Hc. apply in_or_app. right.
      replace (s + S i)%nat with (S s + i)%nat by lia. now apply IH.
Qed.

(** ** Text-format selection *)

Lemma py_get_PStr (k : string) (d : pydict) (url : string) :
  py_get k d = PStr url <-> dict_get k d = Some (PStr url).
Proof.
  unfold py_get. destruct (dict_get k d) as [v |]; split; intros H;
    try congruence; discriminate.
Qed.

Lemma truthy_PStr (s : string) : truthy (PStr s) = true <-> s <> "".
Proof.
  simpl. destruct (String.eqb_spec s ""); simpl; split; intros H;
    congruence.
Qed.

Lemma pick_preferred_spec (formats : pydict) (keys : list string) :
  match pick_preferred keys formats with
  | Some url =>
      exists pre k post,
        keys = (pre ++ k :: post)%list /\ preferred_hit formats k url /\
        (forall k' u, In k' pre -> ~ preferred_hit formats k' u)
  | None => forall k u, In k keys -> ~ preferred_hit formats k u
  end.
Proof.
  induction keys as [| key rest IH]; cbn [pick_preferred In].
  - intros k u [].
  - assert (Hskip :
      (forall u, ~ preferred_hit formats key u) ->
      match pick_preferred rest formats with
      | Some url =>
          exists pre k post,
            key :: rest = (pre ++ k :: post)%list /\ preferred_hit formats k url /\
            (forall k' u, In k' pre -> ~ preferred_hit formats k' u)
      | None => forall k u, key = k \/ In k rest -> ~ preferred_hit formats k u
      end).
    { intros Hno. destruct (pick_preferred rest formats) as [url |].
      - destruct IH as (pre & k & post & -> & Hk & Hpre).
        exists (key :: pre), k, post. repeat split; try apply Hk.
        intros k' u [<- | Hin]; [apply Hno | now apply Hpre].
      - intros k u [<- | Hin]; [apply Hno | now apply IH]. }
    destruct (py_get key formats) as [| b | n | f | url | l | d] eqn:G;
      try (apply Hskip; intros u (Hu & _); apply py_get_PStr in Hu; congruence).
    destruct (truthy (PStr url) && negb (is_zip url)) eqn:T.
    + apply andb_prop in T as [T1 T2]. apply truthy_PStr in T1.
      apply negb_true_iff in T2.
      exists [], key, rest.
      split; [reflexivity |]. split.
      * split; [now apply py_get_PStr | now split].
      * intros k' u [].
    + apply Hskip. intros u (Hu & Hne & Hz).
      apply py_get_PStr in Hu. rewrite G in Hu. injection Hu as ->.
      apply truthy_PStr in Hne. rewrite Hne, Hz in T. discriminate.
Qed.

Lemma pick_fallback_spec (items : pydict) :
  match pick_fallback items with
  | Some url =>
      exists pre kv post,
        items = (pre ++ kv :: post)%list /\ fallback_hit kv url /\
        (forall kv' u, In kv' pre -> ~ fallback_hit kv' u)
  | None => forall kv u, In kv items -> ~ fallback_hit kv u
  end.
Proof.
  induction items as [| [key v] rest IH]; cbn [pick_fallback In].
  - intros kv u [].
  - assert (Hskip :
      (forall u, ~ fallback_hit (key, v) u) ->
      match pick_fallback rest with
      | Some url =>
          exists pre kv post,
            (key, v) :: rest = (pre ++ kv :: post)%list /\ fallback_hit kv url /\
            (forall kv' u, In kv' pre -> ~ fallback_hit kv' u)
      | None => forall kv u, (key, v) = kv \/ In kv rest -> ~ fallback_hit kv u
      end).
    { intros Hno. destruct (pick_fallback rest) as [url |].
      - destruct IH as (pre & kv & post & -> & Hk & Hpre).
        exists ((key, v) :: pre), kv, post. repeat split; try apply Hk.
        intros kv' u [<- | Hin]; [apply Hno | now apply Hpre].
      - intros kv u [<- | Hin]; [apply Hno | now apply IH]. }
    destruct v as [| b | n | f | url | l | d];
      try (apply Hskip; intros u (Hu & _); discriminate).
    destruct (startswith key "text/" && negb (is_zip url)) eqn:T.
    + apply andb_prop in T as [T1 T2]. apply negb_true_iff in T2.
      exists [], (key, PStr url), rest.
      split; [reflexivity |]. split; [now split |].
      intros kv' u [].
    + apply Hskip. intros u (Hu & Hs & Hz). simpl in *.
      injection Hu as ->. rewrite Hs, Hz in T. discriminate.
Qed.

Lemma pick_dict_eq (formats : pydict) :
  _pick_best_text_format (PDict formats)
  = match pick_preferred preferred_keys formats with
    | Some url => Ok (PStr url)
    | None =>
        match pick_fallback formats with
        | Some url => Ok (PStr url)
        | None => Ok PNone
        end
    end.
Proof.
  destruct formats as [| kv rest]; [reflexivity |].
  reflexivity.
Qed.

Lemma pick_result_shape (formats text_url : pyval) :
  _pick_best_text_format formats = Ok text_url ->
  text_url = PNone \/ exists url, text_url = PStr url.
Proof.
  unfold _pick_best_text_format.
  destruct (negb (truthy formats)); [intros [= <-]; now left |].
  destruct formats as [| b | n | f | s | l | d]; try discriminate.
  destruct (pick_preferred preferred_keys d) as [url |].
  - intros [= <-]. right. now exists url.
  - destruct (pick_fallback d) as [url |]; intros [= <-];
      [right; now exists url | now left].
Qed.

Section NormalizeFacts.

Variable float_repr : spec_float -> string.
Variable net : remote.

(** What [_normalize_book] does once the loop over the authors and the
    selection of [text_url] have gone through, with no download to make. *)
Lemma normalize_book_no_download (site : nat * nat) (book : pydict)
    (download_text : bool) (max_chars : option Z) (items : list pyval)
    (text_url : pyval) :
  py_iter (raw_authors_of book) = Ok items ->
  _pick_best_text_format (formats_of book) = Ok text_url ->
  download_text && truthy text_url = false ->
  _normalize_book float_repr net site book download_text max_chars
  = ([], Ok (PDict
       (core_fields float_repr book items text_url
          ++ (if download_text then [("text", PNone)] else []))%list)).
Proof.
  intros Hit Hpick Hno. unfold _normalize_book.
  fold (raw_authors_of book). fold (formats_of book).
  rewrite Hit, Hpick. cbn [lift bind ret app].
  destruct (pick_result_shape _ _ Hpick) as [-> | [url ->]].
  - destruct download_text; reflexivity.
  - rewrite Hno. destruct download_text; reflexivity.
Qed.

(** The same when the download is made. *)
Lemma normalize_book_download (site : nat * nat) (book : pydict)
    (max_chars : option Z) (items : list pyval) (url : string) :
  py_iter (raw_authors_of book) = Ok items ->
  _pick_best_text_format (formats_of book) = Ok (PStr url) ->
  url <> "" ->
  _normalize_book float_repr net site book true max_chars
  = (calls (_download_text net site url max_chars),
     match outcome (_download_text net site url max_chars) with
     | Ok (text, text_error) =>
         Ok (PDict
           (core_fields float_repr book items (PStr url)
              ++ ("text", text)
                 :: (if truthy text_error then [("text_error", text_error)] else []))%list)
     | Raise e => Raise e
     end).
Proof.
  intros Hit Hpick Hne. unfold _normalize_book.
  fold (raw_authors_of book). fold (formats_of book).
  rewrite Hit, Hpick. cbn [lift bind ret app].
  apply truthy_PStr in Hne. rewrite Hne. cbn [andb].
  destruct (_download_text net site url max_chars) as [log [[text text_error] | e]];
    cbn [bind ret calls outcome fst snd]; [| reflexivity].
  rewrite app_nil_r. destruct (truthy text_error); reflexivity.
Qed.


Lemma substring_all (s : string) (n : nat) :
  (String.length s <= n)%nat -> substring 0 n s = s.
Proof.
  revert n; induction s as [| c s IH]; intros n Hn.
  - destruct n; reflexivity.
  - destruct n as [| n]; simpl in *; [lia |].
    rewrite IH; [reflexivity | lia].
Qed.

Lemma download_text_outcome (site : nat * nat) (url : string) (max_chars : option Z) :
  _download_text net site url max_chars
  = ([DownloadCall url],
     match download net (fst site) (snd site) url with
     | FetchHttpError exc =>
         Ok (PNone, PStr ("HTTP error while downloading text: " ++ exc))
     | FetchText body => Ok (PStr (spec_truncate max_chars body), PNone)
     end).
Proof.
  unfold _download_text, spec_truncate. cbn [bind].
  destruct (download net (fst site) (snd site) url) as [exc | body];
    [reflexivity |].
  destruct max_chars as [n |]; [| reflexivity].
  destruct (0 <? n) eqn:Hpos; cbn [andb]; [| reflexivity].
  destruct (n <? Z.of_nat (String.length body)) eqn:Hlen; [reflexivity |].
  apply Z.ltb_ge in Hlen. apply Z.ltb_lt in Hpos.
  unfold ret. rewrite substring_all; [reflexivity | lia].
Qed.

(** C5. When the download is requested and a (non-empty) [text_url] was
    resolved: a successful download puts the body, cut to its first
    [max_chars] characters when [max_chars] is positive and whole otherwise,
    in [text] and sets no [text_error]; a failed one sets [text_error] to
    the error text and leaves [text] without a value.  When no [text_url]
    was resolved, [text] has no value and no [text_error] is set.  When the
    download is not requested, neither key is in the match. *)
Theorem text_fields_of_match (site : nat * nat) (book : pydict)
    (max_chars : option Z) (items : list pyval) (text_url : pyval) :
  py_iter (raw_authors_of book) = Ok items ->
  _pick_best_text_format (formats_of book) = Ok text_url ->
  (forall url, text_url = PStr url -> url <> "" ->
     exists m,
       outcome (_normalize_book float_repr net site book true max_chars)
       = Ok (PDict m) /\
       match download net (fst site) (snd site) url with
       | FetchText body =>
           dict_get "text" m = Some (PStr (spec_truncate max_chars body)) /\
           no_key "text_error" m
       | FetchHttpError exc =>
           dict_get "text_error" m
           = Some (PStr ("HTTP error while downloading text: " ++ exc)) /\
           absent "text" m
       end)
  /\ (truthy text_url = false ->
      exists m,
        outcome (_normalize_book float_repr net site book true max_chars)
        = Ok (PDict m) /\
        absent "text" m /\ no_key "text_error" m)
  /\ (exists m,
        outcome (_normalize_book float_repr net site book false max_chars)
        = Ok (PDict m) /\
        no_key "text" m /\ no_key "text_error" m).
Proof.
  intros Hit Hpick. split; [| split].
  - intros url -> Hne.
    rewrite (normalize_book_download site book max_chars items url Hit Hpick Hne).
    rewrite download_text_outcome. cbn [calls outcome fst snd].
    destruct (download net (fst site) (snd site) url) as [exc | body];
      eexists; (split; [reflexivity |]); split; reflexivity.
  - intros Hf.
    rewrite (normalize_book_no_download site book true max_chars items text_url
               Hit Hpick Hf).
    eexists; split; [reflexivity |]. split; reflexivity.
  - rewrite (normalize_book_no_download site book false max_chars items text_url
               Hit Hpick eq_refl).
    eexists; split; [reflexivity |]. split; reflexivity.
Qed.

(** On a failed download the key "text" is in the match, bound to [None]. *)
Lemma text_key_on_failure (site : nat * nat) (book : pydict)
    (max_chars : option Z) (items : list pyval) (url exc : string) :
  py_iter (raw_authors_of book) = Ok items ->
  _pick_best_text_format (formats_of book) = Ok (PStr url) ->
  url <> "" ->
  download net (fst site) (snd site) url = FetchHttpError exc ->
  exists m,
    outcome (_normalize_book float_repr net site book true max_chars) = Ok (PDict m) /\
    dict_get "text" m = Some PNone.
Proof.
  intros Hit Hpick Hne Hd.
  rewrite (normalize_book_download site book max_chars items url Hit Hpick Hne).
  rewrite download_text_outcome, Hd. cbn [calls outcome fst snd].
  eexists; split; reflexivity.
Qed.

(** ** Normalization of a record *)

Lemma collect_authors_filter_map (items : list pyval) :
  collect_authors items = map author_entry (filter is_dict items).
Proof.
  induction items as [| [| b | n | f | s | l | d] rest IH]; simpl; try exact IH.
  - reflexivity.
  - now rewrite IH.
Qed.

Lemma collect_authors_shaped (items : list pyval) :
  Forall author_shaped (collect_authors items).
Proof.
  induction items as [| [| b | n | f | s | l | d] rest IH]; simpl; auto.
  constructor; [| exact IH]. now eexists _, _, _.
Qed.

Lemma authors_iterate (book : pydict) :
  iterable_or_falsy (py_get "authors" book) ->
  exists items, py_iter (raw_authors_of book) = Ok items.
Proof.
  unfold iterable_or_falsy, raw_authors_of, py_or.
  destruct (py_get "authors" book) as [| b | n | f | s | l | d];
    intros [H | [H | [H | H]]];
    try discriminate H;
    try (rewrite H);
    try (destruct (truthy _));
    simpl; eauto.
Qed.

Lemma formats_pick (book : pydict) :
  mapping_or_falsy (py_get "formats" book) ->
  exists text_url, _pick_best_text_format (formats_of book) = Ok text_url.
Proof.
  unfold mapping_or_falsy, formats_of, py_or.
  intros [H | H].
  - rewrite H. now exists PNone.
  - destruct (py_get "formats" book) as [| b | n | f | s | l | d];
      try discriminate H.
    destruct (truthy (PDict d)); [| now exists PNone].
    rewrite pick_dict_eq.
    destruct (pick_preferred preferred_keys d); [eauto |].
    destruct (pick_fallback d); eauto.
Qed.

(** Once the authors iterate and the selection returns, the record
    normalizes: the ten core fields, then the text fields. *)
Lemma normalize_book_returns (site : nat * nat) (book : pydict)
    (download_text : bool) (max_chars : option Z) (items : list pyval)
    (text_url : pyval) :
  py_iter (raw_authors_of book) = Ok items ->
  _pick_best_text_format (formats_of book) = Ok text_url ->
  exists log extra,
    _normalize_book float_repr net site book download_text max_chars
    = (log, Ok (PDict (core_fields float_repr book items text_url ++ extra)%list)) /\
    (download_text && truthy text_url = false ->
     log = [] /\ extra = if download_text then [("text", PNone)] else []).
Proof.
  intros Hit Hpick.
  destruct (download_text && truthy text_url) eqn:Hd.
  - apply andb_prop in Hd as [-> Ht].
    destruct (pick_result_shape _ _ Hpick) as [-> | [url ->]]; [discriminate |].
    apply truthy_PStr in Ht.
    rewrite (normalize_book_download site book max_chars items url Hit Hpick Ht).
    rewrite download_text_outcome. cbn [calls outcome fst snd].
    destruct (download net (fst site) (snd site) url);
      eexists _, _; (split; [reflexivity | discriminate]).
  - rewrite (normalize_book_no_download site book download_text max_chars
               items text_url Hit Hpick Hd).
    eexists _, _. split; [reflexivity |]. now intros _.
Qed.

Lemma collect_authors_none (items : list pyval) :
  Forall (fun x => is_dict x = false) items -> collect_authors items = [].
Proof.
  induction 1 as [| x items Hx _ IH]; [reflexivity |].
  destruct x; try exact IH. discriminate Hx.
Qed.

(** The authors kept of a record, read off its "authors" value: the
    entries of the objects of a list, nothing of a string or a mapping. *)
Lemma collect_authors_of_items (book : pydict) (items : list pyval) :
  py_iter (raw_authors_of book) = Ok items ->
  collect_authors items
  = match py_get "authors" book with
    | PList raw => map author_entry (filter is_dict raw)
    | _ => []
    end.
Proof.
  unfold raw_authors_of, py_or.
  destruct (py_get "authors" book) as [| b | n | f | s | raw | d] eqn:Hv;
    destruct (truthy _) eqn:Ht; cbn [py_iter];
    try discriminate; intros [= <-]; try reflexivity.
  - apply collect_authors_none, Forall_forall. intros x Hx.
    apply in_map_iff in Hx as (c & <- & _). reflexivity.
  - apply collect_authors_filter_map.
  - destruct raw; [reflexivity | discriminate Ht].
  - apply collect_authors_none, Forall_forall. intros x Hx.
    apply in_map_iff in Hx as (c & <- & _). reflexivity.
Qed.

(** C6, as amended.  A record whose "authors" value is missing, falsy or
    iterable and whose "formats" value is missing, falsy or a mapping
    normalizes without an exception.  The match has "id", "title",
    "download_count" and "copyright" as the record has them ([None] when
    missing), and "languages", "subjects" and "bookshelves" as the record
    has them when truthy and [[]] otherwise; "authors" is the list of the
    name/birth_year/death_year entries of the objects in a list-valued
    "authors", in their order, every other element being dropped, and [[]]
    when "authors" is not a list; "text_url" is what [_pick_best_text_format]
    selects in "formats", [None] or a string.  A record without "authors",
    "languages" or "formats" gives [authors: []], [languages: []] and
    [text_url: None], with no "text_error" and no remote call. *)
Theorem normalize_book_tolerant (site : nat * nat) (book : pydict)
    (download_text : bool) (max_chars : option Z) :
  iterable_or_falsy (py_get "authors" book) ->
  mapping_or_falsy (py_get "formats" book) ->
  exists m,
    outcome (_normalize_book float_repr net site book download_text max_chars)
    = Ok (PDict m) /\
    (forall k, In k ["id"; "title"; "download_count"; "copyright"] ->
       dict_get k m = Some (py_get k book)) /\
    (forall k, In k ["languages"; "subjects"; "bookshelves"] ->
       dict_get k m = Some (py_or (py_get k book) (PList []))) /\
    (exists authors,
       dict_get "authors" m = Some (PList authors) /\
       authors = match py_get "authors" book with
                 | PList raw => map author_entry (filter is_dict raw)
                 | _ => []
                 end /\
       Forall author_shaped authors) /\
    (exists text_url,
       dict_get "text_url" m = Some text_url /\
       _pick_best_text_format (formats_of book) = Ok text_url /\
       (text_url = PNone \/ exists url, text_url = PStr url)) /\
    (dict_get "authors" book = None -> dict_get "authors" m = Some (PList [])) /\
    (dict_get "languages" book = None -> dict_get "languages" m = Some (PList [])) /\
    (dict_get "formats" book = None ->
       dict_get "text_url" m = Some PNone /\ no_key "text_error" m /\
       calls (_normalize_book float_repr net site book download_text max_chars) = []).
Proof.
  intros Ha Hf.
  destruct (authors_iterate book Ha) as [items Hit].
  destruct (formats_pick book Hf) as [text_url Hpick].
  destruct (normalize_book_returns site book download_text max_chars items
              text_url Hit Hpick) as (log & extra & Hrun & Hquiet).
  rewrite Hrun. cbn [outcome calls fst snd].
  eexists. split; [reflexivity |].
  split; [| split; [| split; [| split; [| split; [| split]]]]].
  - intros k [<- | [<- | [<- | [<- | []]]]]; reflexivity.
  - intros k [<- | [<- | [<- | []]]]; reflexivity.
  - exists (collect_authors items). split; [reflexivity |].
    split; [exact (collect_authors_of_items book items Hit) |].
    apply collect_authors_shaped.
  - exists text_url. split; [reflexivity |]. split; [exact Hpick |].
    exact (pick_result_shape _ _ Hpick).
  - intros Hnone. unfold raw_authors_of, py_get in Hit. rewrite Hnone in Hit.
    injection Hit as <-. reflexivity.
  - intros Hnone. cbn. unfold py_get. rewrite Hnone. reflexivity.
  - intros Hnone. unfold formats_of, py_get in Hpick. rewrite Hnone in Hpick.
    injection Hpick as <-.
    destruct Hquiet as [-> ->]; [apply andb_false_r |].
    repeat split. unfold no_key. destruct download_text; reflexivity.
Qed.

(** C7, at a boolean id.  The claim makes "gutenberg_url" [None] unless the
    id is an integer, and the template followed by the id otherwise.  For
    the record [{"id": True}] the code takes the branch of
    [isinstance(book_id, int)], [bool] being a subclass of [int], and the
    match gets the template followed by the text "True". *)
Theorem gutenberg_url_of_boolean_id (site : nat * nat) (download_text : bool)
    (max_chars : option Z) :
  exists m,
    outcome (_normalize_book float_repr net site [("id", PBool true)]
               download_text max_chars) = Ok (PDict m) /\
    dict_get "gutenberg_url" m
    = Some (PStr "https://www.gutenberg.org/ebooks/True").
Proof.
  rewrite (normalize_book_no_download site [("id", PBool true)] download_text
             max_chars [] PNone eq_refl eq_refl (andb_false_r _)).
  eexists. split; reflexivity.
Qed.

(** The canonical URL of every match: the template and the decimal id for an
    [int]; [None] for a missing id and for every other type but [bool]. *)
Lemma gutenberg_url_of_match (site : nat * nat) (book : pydict)
    (download_text : bool) (max_chars : option Z) (m : pydict) :
  outcome (_normalize_book float_repr net site book download_text max_chars)
  = Ok (PDict m) ->
  dict_get "gutenberg_url" m
  = Some match py_get "id" book with
         | PInt n => PStr ("https://www.gutenberg.org/ebooks/" ++ str_of_Z n)
         | PBool b => PStr ("https://www.gutenberg.org/ebooks/" ++ str_of_bool b)
         | _ => PNone
         end.
Proof.
  intros Hm.
  destruct (py_iter (raw_authors_of book)) as [items | e] eqn:Hit.
  2:{ unfold _normalize_book in Hm. fold (raw_authors_of book) in Hm.
      rewrite Hit in Hm. discriminate Hm. }
  destruct (_pick_best_text_format (formats_of book)) as [text_url | e] eqn:Hpick.
  2:{ unfold _normalize_book in Hm. fold (raw_authors_of book) in Hm.
      fold (formats_of book) in Hm.
      rewrite Hit, Hpick in Hm. discriminate Hm. }
  destruct (normalize_book_returns site book download_text max_chars items
              text_url Hit Hpick) as (log & extra & Hrun & _).
  rewrite Hrun in Hm. injection Hm as <-.
  cbn. destruct (py_get "id" book); reflexivity.
Qed.

End NormalizeFacts.

(** ** One query *)

Section SearchFacts.

Variable float_repr : spec_float -> string.
Variable net : remote.

Lemma clamp_max (n : Z) : (if n <=? 0 then 1 else n) = Z.max 1 n.
Proof. destruct (Z.leb_spec n 0); lia. Qed.

Lemma slice_to_firstn {A : Type} (l : list A) (n : Z) :
  0 <= n -> slice_to l n = firstn (Z.to_nat n) l.
Proof.
  intros Hn. unfold slice_to. destruct (Z.leb_spec 0 n); [reflexivity | lia].
Qed.

(** [handle_single_title], branch by branch of [_search_gutendex]. *)
Lemma handle_single_title_run (max_results : Z) (download_text : bool)
    (max_chars : option Z) (i : nat) (q : string) :
  handle_single_title float_repr net max_results download_text max_chars i q
  = match gutendex net i q with
    | SearchHttpError exc =>
        ([SearchCall q],
         Ok (PDict [ ("query", PStr q); ("matches", PList []);
                     ("error", PStr ("HTTP error while querying Gutendex: " ++ exc)) ]))
    | SearchBadJson exc =>
        ([SearchCall q],
         Ok (PDict [ ("query", PStr q); ("matches", PList []);
                     ("error",
                      PStr ("Failed to decode JSON response from Gutendex: " ++ exc)) ]))
    | SearchJson (PDict d) =>
        match py_get_default "results" d (PList []) with
        | PList results =>
            let loop :=
              normalize_all float_repr net i 0 (slice_to results max_results)
                download_text max_chars in
            (SearchCall q :: calls loop,
             match outcome loop with
             | Ok matches =>
                 Ok (PDict [ ("query", PStr q); ("matches", PList matches) ])
             | Raise e => Raise e
             end)
        | _ =>
            ([SearchCall q],
             Ok (PDict [ ("query", PStr q); ("matches", PList []);
                         ("error",
                          PStr "Unexpected Gutendex response format: 'results' is not a list") ]))
        end
    | SearchJson data => ([SearchCall q], Raise (no_attribute data "get"))
    end.
Proof.
  unfold handle_single_title, _search_gutendex. cbn [bind].
  destruct (gutendex net i q) as [exc | exc | data]; try reflexivity.
  destruct data as [| b | n | f | s | l | d]; try reflexivity.
  destruct (py_get_default "results" d (PList [])) as [| b | n | f | s | results | d'];
    try reflexivity.
  cbn [ret bind app].
  destruct (slice_to results max_results) as [| book rest] eqn:Hs.
  - reflexivity.
  - cbn [truthy].
    destruct (normalize_all float_repr net i 0 (book :: rest) download_text max_chars)
      as [log [matches | e]]; cbn [bind ret calls outcome fst snd app];
      [now rewrite app_nil_r | reflexivity].
Qed.

(** The loop over the kept raw entries: entries that are not objects are
    passed over, the others are normalized in order; position [j + k] goes to
    the download of the entry at place [k]. *)
Lemma normalize_all_ok (i : nat) (download_text : bool) (max_chars : option Z)
    (raw : list pyval) (j : nat) (matches : list pyval) :
  outcome (normalize_all float_repr net i j raw download_text max_chars) = Ok matches
  <-> Forall2
        (fun jb m =>
           exists book, snd jb = PDict book /\
             outcome (_normalize_book float_repr net (i, fst jb) book
                        download_text max_chars) = Ok m)
        (filter (fun jb => is_dict (snd jb)) (combine (seq j (List.length raw)) raw))
        matches.
Proof.
  revert j matches; induction raw as [| v rest IH]; intros j matches.
  - simpl. split; intros H; [injection H as <-; constructor | now inversion H].
  - assert (Hskip : is_dict v = false ->
      normalize_all float_repr net i j (v :: rest) download_text max_chars
      = normalize_all float_repr net i (S j) rest download_text max_chars).
    { destruct v; try reflexivity; discriminate. }
    destruct (is_dict v) eqn:Hv.
    + destruct v as [| | | | | | book]; try discriminate Hv.
      cbn [normalize_all List.length seq combine filter snd is_dict].
      rewrite outcome_bind.
      destruct (outcome (_normalize_book float_repr net (i, j) book download_text
                           max_chars)) as [m | e] eqn:Hm.
      * rewrite outcome_bind.
        destruct (outcome (normalize_all float_repr net i (S j) rest download_text
                             max_chars)) as [ms | e] eqn:Hms.
        -- cbn [ret outcome snd]. split; intros H.
           ++ injection H as <-. constructor.
              ** exists book. now split.
              ** now apply IH.
           ++ inversion H as [| jb m' l ms' (book' & Hb & Hm') Hrest]; subst.
              cbn [fst snd] in *. injection Hb as <-.
              rewrite Hm in Hm'. injection Hm' as <-.
              apply IH in Hrest. rewrite Hms in Hrest. now injection Hrest as <-.
        -- split; intros H; [discriminate |].
           inversion H as [| jb m' l ms' _ Hrest]; subst.
           apply IH in Hrest. rewrite Hms in Hrest. discriminate.
      * split; intros H; [discriminate |].
        inversion H as [| jb m' l ms' (book' & Hb & Hm') Hrest]; subst.
        cbn [fst snd] in *. injection Hb as <-. rewrite Hm in Hm'. discriminate.
    + rewrite (Hskip eq_refl).
      cbn [List.length seq combine filter snd]. rewrite Hv. apply IH.
Qed.

Lemma forall2_length_le {A B : Type} (P : A -> B -> Prop) (p : A -> bool)
    (l : list A) (ms : list B) :
  Forall2 P (filter p l) ms -> (List.length ms <= List.length l)%nat.
Proof.
  intros H. apply Forall2_length in H. rewrite <- H. apply filter_length_le.
Qed.


(** ** All queries *)

Lemma gather_indexed_ok {A B : Type} (f : nat -> A -> io B) (l : list A)
    (s : nat) (es : list B) :
  outcome (gather net (map (fun ia => f (fst ia) (snd ia))
                           (combine (seq s (List.length l)) l))) = Ok es
  <-> List.length es = List.length l /\
      forall k a, nth_error l k = Some a ->
        exists e, nth_error es k = Some e /\ outcome (f (s + k)%nat a) = Ok e.
Proof.
  rewrite outcome_gather_ok.
  revert s es; induction l as [| a l IH]; intros s es; simpl.
  - split.
    + intros H; inversion H; subst. split; [reflexivity |].
      intros [| k] a'; discriminate.
    + intros [Hlen _]. destruct es; [constructor | discriminate].
  - split.
    + intros H; inversion H as [| t e ts es' He Hes]; subst.
      apply IH in Hes as [Hlen Hnth]. split; [simpl; now rewrite Hlen |].
      intros [| k] a' Hk; simpl in Hk.
      * injection Hk as <-. exists e. rewrite Nat.add_0_r. now split.
      * destruct (Hnth k a' Hk) as (e' & He' & Hf).
        exists e'. split; [exact He' |]. now rewrite Nat.add_succ_r.
    + intros [Hlen Hnth]. destruct es as [| e es]; [discriminate |].
      constructor.
      * destruct (Hnth 0%nat a eq_refl) as (e' & [= <-] & Hf).
        now rewrite Nat.add_0_r in Hf.
      * apply IH. split; [simpl in Hlen; lia |].
        intros k a' Hk. destruct (Hnth (S k) a' Hk) as (e' & He' & Hf).
        exists e'. split; [exact He' |]. now rewrite Nat.add_succ_r in Hf.
Qed.

Lemma nth_error_indexed {A : Type} (l : list A) (s k i : nat) (a : A) :
  nth_error (combine (seq s (List.length l)) l) i = Some (k, a) ->
  k = (s + i)%nat /\ nth_error l i = Some a.
Proof.
  revert s i; induction l as [| x l IH]; intros s i; simpl.
  - destruct i; discriminate.
  - destruct i as [| i]; simpl.
    + intros [= <- <-]. split; [lia | reflexivity].
    + intros H. apply IH in H as [-> H]. split; [lia | exact H].
Qed.

Lemma gather_indexed_raise {A B : Type} (f : nat -> A -> io B) (l : list A)
    (s : nat) (e : exn) :
  outcome (gather net (map (fun ia => f (fst ia) (snd ia))
                           (combine (seq s (List.length l)) l))) = Raise e ->
  exists k a, nth_error l k = Some a /\ outcome (f (s + k)%nat a) = Raise e.
Proof.
  intros H. apply outcome_gather_raise in H as (i & t & Hi & Ht).
  rewrite nth_error_map in Hi.
  destruct (nth_error (combine (seq s (List.length l)) l) i) as [[k a] |] eqn:Hc;
    [| discriminate].
  injection Hi as <-. apply nth_error_indexed in Hc as [-> Ha].
  now exists i, a.
Qed.

Lemma gather_indexed_total {A B : Type} (f : nat -> A -> io B) (l : list A)
    (s : nat) :
  (forall k a, nth_error l k = Some a -> exists e, outcome (f (s + k)%nat a) = Ok e) ->
  exists es,
    outcome (gather net (map (fun ia => f (fst ia) (snd ia))
                             (combine (seq s (List.length l)) l))) = Ok es.
Proof.
  intros H.
  destruct (outcome (gather net (map (fun ia => f (fst ia) (snd ia))
                                     (combine (seq s (List.length l)) l)))) as [es | e] eqn:G.
  - now exists es.
  - apply gather_indexed_raise in G as (k & a & Hk & Hr).
    destruct (H k a Hk) as [e' He']. congruence.
Qed.

(** [search_gutenberg] on a list: the per-title tasks, gathered. *)
Lemma search_gutenberg_list (ts : list pyval) (max_results : Z)
    (download_text : bool) (max_chars : option Z) :
  let tasks :=
    map (fun iq => handle_single_title float_repr net (Z.max 1 max_results)
                     download_text max_chars (fst iq) (snd iq))
        (enumerate (clean_titles float_repr ts)) in
  search_gutenberg float_repr net (PList ts) max_results download_text max_chars
  = (calls (gather net tasks),
     match outcome (gather net tasks) with
     | Ok results => Ok (PDict [ ("results", PList results) ])
     | Raise e => Raise e
     end).
Proof.
  unfold search_gutenberg. rewrite clamp_max.
  destruct (clean_titles float_repr ts) as [| q qs] eqn:Hc; [reflexivity |].
  cbn [map truthy negb].
  destruct (gather _ _) as [log [results | e]]; cbn [bind ret calls outcome fst snd];
    [now rewrite app_nil_r | reflexivity].
Qed.

Lemma normalize_book_raise (site : nat * nat) (book : pydict)
    (download_text : bool) (max_chars : option Z) (e : exn) :
  outcome (_normalize_book float_repr net site book download_text max_chars) = Raise e ->
  raised_on_remote_data e.
Proof.
  intros H.
  destruct (py_iter (raw_authors_of book)) as [items | e'] eqn:Hit.
  - destruct (_pick_best_text_format (formats_of book)) as [text_url | e'] eqn:Hpick.
    + destruct (normalize_book_returns float_repr net site book download_text
                  max_chars items text_url Hit Hpick) as (log & extra & Hrun & _).
      rewrite Hrun in H. discriminate H.
    + unfold _normalize_book in H. fold (raw_authors_of book) in H.
      fold (formats_of book) in H. rewrite Hit, Hpick in H.
      injection H as <-.
      unfold _pick_best_text_format in Hpick.
      destruct (negb (truthy (formats_of book))); [discriminate |].
      exists (formats_of book). left.
      destruct (formats_of book); try (now injection Hpick as <-).
      destruct (pick_preferred preferred_keys d); [discriminate |].
      destruct (pick_fallback d); discriminate.
  - unfold _normalize_book in H. fold (raw_authors_of book) in H.
    rewrite Hit in H. injection H as <-.
    exists (raw_authors_of book). right.
    destruct (raw_authors_of book); try discriminate Hit;
      now injection Hit as <-.
Qed.

Lemma normalize_all_raise (i : nat) (download_text : bool) (max_chars : option Z)
    (raw : list pyval) (j : nat) (e : exn) :
  outcome (normalize_all float_repr net i j raw download_text max_chars) = Raise e ->
  raised_on_remote_data e.
Proof.
  revert j; induction raw as [| v rest IH]; intros j; [discriminate |].
  destruct v as [| | | | | | book]; try apply IH.
  cbn [normalize_all]. rewrite outcome_bind.
  destruct (outcome (_normalize_book float_repr net (i, j) book download_text
                       max_chars)) as [m | e'] eqn:Hm.
  - rewrite outcome_bind.
    destruct (outcome (normalize_all float_repr net i (S j) rest download_text
                         max_chars)) as [ms | e'] eqn:Hms; [discriminate |].
    intros [= <-]. now apply (IH (S j)).
  - intros [= <-]. now apply normalize_book_raise in Hm.
Qed.

Lemma handle_single_title_raise (max_results : Z) (download_text : bool)
    (max_chars : option Z) (i : nat) (q : string) (e : exn) :
  outcome (handle_single_title float_repr net max_results download_text
             max_chars i q) = Raise e ->
  raised_on_remote_data e.
Proof.
  rewrite handle_single_title_run.
  destruct (gutendex net i q) as [exc | exc | data]; try discriminate.
  destruct data as [| b | n | f | s | l | d];
    try (intros [= <-]; eexists; left; reflexivity).
  destruct (py_get_default "results" d (PList [])) as [| b | n | f | s | results | d'];
    try discriminate.
  cbn [outcome snd].
  destruct (outcome (normalize_all float_repr net i 0 (slice_to results max_results)
                       download_text max_chars)) as [ms | e'] eqn:Hl;
    [discriminate |].
  intros [= <-]. now apply normalize_all_raise in Hl.
Qed.

Lemma remote_data_not_invalid_argument (e : exn) :
  raised_on_remote_data e -> e <> invalid_argument.
Proof.
  intros [v [-> | ->]]; discriminate.
Qed.


Lemma normalize_book_calls (site : nat * nat) (book : pydict)
    (download_text : bool) (max_chars : option Z) :
  filter is_search_call
    (calls (_normalize_book float_repr net site book download_text max_chars)) = [].
Proof.
  destruct (py_iter (raw_authors_of book)) as [items | e] eqn:Hit.
  2:{ unfold _normalize_book. fold (raw_authors_of book). now rewrite Hit. }
  destruct (_pick_best_text_format (formats_of book)) as [text_url | e] eqn:Hpick.
  2:{ unfold _normalize_book. fold (raw_authors_of book). fold (formats_of book).
      now rewrite Hit, Hpick. }
  destruct (download_text && truthy text_url) eqn:Hd.
  - apply andb_prop in Hd as [-> Ht].
    destruct (pick_result_shape _ _ Hpick) as [-> | [url ->]]; [discriminate |].
    apply truthy_PStr in Ht.
    rewrite (normalize_book_download float_repr net site book max_chars items url
               Hit Hpick Ht).
    now rewrite download_text_outcome.
  - now rewrite (normalize_book_no_download float_repr net site book download_text
                   max_chars items text_url Hit Hpick Hd).
Qed.

Lemma normalize_all_calls (i : nat) (download_text : bool) (max_chars : option Z)
    (raw : list pyval) (j : nat) :
  filter is_search_call
    (calls (normalize_all float_repr net i j raw download_text max_chars)) = [].
Proof.
  revert j; induction raw as [| v rest IH]; intros j; [reflexivity |].
  destruct v as [| | | | | | book]; try apply IH.
  cbn [normalize_all]. rewrite calls_bind, filter_app, normalize_book_calls.
  destruct (outcome (_normalize_book float_repr net (i, j) book download_text
                       max_chars)); [| reflexivity].
  rewrite calls_bind, filter_app, IH.
  destruct (outcome (normalize_all float_repr net i (S j) rest download_text
                       max_chars)); reflexivity.
Qed.

Lemma handle_single_title_calls (max_results : Z) (download_text : bool)
    (max_chars : option Z) (i : nat) (q : string) :
  filter is_search_call
    (calls (handle_single_title float_repr net max_results download_text
              max_chars i q)) = [SearchCall q].
Proof.
  rewrite handle_single_title_run.
  destruct (gutendex net i q) as [exc | exc | data]; try reflexivity.
  destruct data as [| b | n | f | s | l | d]; try reflexivity.
  destruct (py_get_default "results" d (PList [])) as [| b | n | f | s | results | d'];
    try reflexivity.
  cbn [calls fst filter is_search_call]. now rewrite normalize_all_calls.
Qed.

(** Every entry a handler returns is the dict of its query: "query" first,
    then "matches", a list. *)
Lemma handle_single_title_entry (max_results : Z) (download_text : bool)
    (max_chars : option Z) (i : nat) (q : string) (e : pyval) :
  outcome (handle_single_title float_repr net max_results download_text
             max_chars i q) = Ok e ->
  exists entry matches,
    e = PDict entry /\ dict_get "query" entry = Some (PStr q) /\
    dict_get "matches" entry = Some (PList matches).
Proof.
  rewrite handle_single_title_run.
  destruct (gutendex net i q) as [exc | exc | data];
    try (intros [= <-]; eexists _, _; repeat split; reflexivity).
  destruct data as [| b | n | f | s | l | d]; try discriminate.
  destruct (py_get_default "results" d (PList [])) as [| b | n | f | s | results | d'];
    try (intros [= <-]; eexists _, _; repeat split; reflexivity).
  cbn [outcome snd].
  destruct (outcome (normalize_all float_repr net i 0 (slice_to results max_results)
                       download_text max_chars)) as [ms | e']; [| discriminate].
  intros [= <-]; eexists _, _; repeat split; reflexivity.
Qed.

Lemma clean_titles_in (ts : list pyval) (q : string) :
  In q (clean_titles float_repr ts)
  <-> q <> "" /\ exists t, In t ts /\ q = py_strip (py_str float_repr t).
Proof.
  unfold clean_titles. rewrite filter_In, in_map_iff, truthy_PStr.
  split.
  - intros [(t & <- & Hin) Hne]. split; [exact Hne |]. now exists t.
  - intros [Hne (t & Hin & ->)]. split; [| exact Hne]. now exists t.
Qed.

(** On strings, cleaning keeps the stripped titles that are not empty. *)
Lemma clean_titles_strings (ss : list string) :
  clean_titles float_repr (map PStr ss)
  = filter (fun s => negb (s =? "")%string) (map py_strip ss).
Proof.
  unfold clean_titles. rewrite map_map. reflexivity.
Qed.

(** C1. For a list of titles, the response that [search_gutenberg] returns
    is [{"results": results}] with one entry per cleaned title, in the order
    of the cleaned titles, the entry at place [i] having the [i]-th cleaned
    title as its "query".  A cleaned title is the stripped [str] of an
    element of the list: it is not empty and stripping it again changes
    nothing.  A response is returned whenever every per-title handler
    returns. *)
Theorem one_result_per_cleaned_title (titles : list pyval) (max_results : Z)
    (download_text : bool) (max_chars : option Z) :
  (forall response,
     outcome (search_gutenberg float_repr net (PList titles) max_results
                download_text max_chars) = Ok response ->
     exists results,
       response = PDict [ ("results", PList results) ] /\
       List.length results = List.length (clean_titles float_repr titles) /\
       forall i q, nth_error (clean_titles float_repr titles) i = Some q ->
         exists entry,
           nth_error results i = Some (PDict entry) /\
           dict_get "query" entry = Some (PStr q))
  /\ (forall q, In q (clean_titles float_repr titles) ->
        q <> "" /\ py_strip q = q /\
        exists t, In t titles /\ q = py_strip (py_str float_repr t))
  /\ ((forall i q, nth_error (clean_titles float_repr titles) i = Some q ->
         exists e,
           outcome (handle_single_title float_repr net (Z.max 1 max_results)
                      download_text max_chars i q) = Ok e) ->
      exists response,
        outcome (search_gutenberg float_repr net (PList titles) max_results
                   download_text max_chars) = Ok response).
Proof.
  rewrite search_gutenberg_list. cbn zeta. cbn [outcome snd]. unfold enumerate.
  split; [| split].
  - intros response H.
    destruct (outcome (gather _ _)) as [results | e] eqn:G; [| discriminate].
    injection H as <-. exists results. split; [reflexivity |].
    apply (gather_indexed_ok
             (fun i q => handle_single_title float_repr net (Z.max 1 max_results)
                           download_text max_chars i q)) in G as [Hlen Hnth].
    split; [exact Hlen |].
    intros i q Hq. destruct (Hnth i q Hq) as (e & He & Hrun).
    apply handle_single_title_entry in Hrun as (entry & matches & -> & Hquery & _).
    now exists entry.
  - intros q Hin. apply clean_titles_in in Hin as [Hne (t & Hin & ->)].
    split; [exact Hne |]. split; [apply py_strip_idempotent |]. now exists t.
  - intros Hall.
    destruct (gather_indexed_total
                (fun i q => handle_single_title float_repr net (Z.max 1 max_results)
                              download_text max_chars i q)
                (clean_titles float_repr titles) 0 Hall) as [es Hes].
    rewrite Hes. eauto.
Qed.


(** C2. [search_gutenberg] raises the invalid-argument error (the
    [TypeError] "titles must be a list of strings") exactly when [titles] is
    not a list.  For a list, the cleaned titles are the stripped [str] of the
    elements that are not empty, and when none is left the call returns
    [{"results": []}] with an empty log of remote calls. *)
Theorem invalid_argument_iff_not_a_list (titles : pyval) (max_results : Z)
    (download_text : bool) (max_chars : option Z) :
  (outcome (search_gutenberg float_repr net titles max_results download_text
              max_chars) = Raise invalid_argument
   <-> is_list titles = false)
  /\ (forall ts, titles = PList ts ->
        (forall q, In q (clean_titles float_repr ts)
                   <-> q <> "" /\ exists t, In t ts /\ q = py_strip (py_str float_repr t))
        /\ (clean_titles float_repr ts = [] ->
            search_gutenberg float_repr net titles max_results download_text max_chars
            = ([], Ok (PDict [ ("results", PList []) ])))).
Proof.
  split.
  - destruct titles as [| b | n | f | s | ts | d];
      try (split; reflexivity).
    split; [| discriminate].
    rewrite search_gutenberg_list. cbn zeta. cbn [outcome snd]. unfold enumerate.
    destruct (outcome (gather _ _)) as [results | e] eqn:G; [discriminate |].
    intros [= ->].
    apply (gather_indexed_raise
             (fun i q => handle_single_title float_repr net (Z.max 1 max_results)
                           download_text max_chars i q)) in G as (k & q & _ & Hr).
    apply handle_single_title_raise, remote_data_not_invalid_argument in Hr.
    now contradiction Hr.
  - intros ts ->. split; [apply clean_titles_in |].
    intros Hc. unfold search_gutenberg. now rewrite Hc.
Qed.

Lemma handlers_search_calls (max_results : Z) (download_text : bool)
    (max_chars : option Z) (qs : list string) (s : nat) :
  filter is_search_call
    (List.concat
       (map calls
            (map (fun iq => handle_single_title float_repr net max_results
                              download_text max_chars (fst iq) (snd iq))
                 (combine (seq s (List.length qs)) qs))))
  = map SearchCall qs.
Proof.
  revert s; induction qs as [| q qs IH]; intros s; [reflexivity |].
  cbn [List.length seq combine map List.concat fst snd].
  now rewrite filter_app, handle_single_title_calls, IH.
Qed.

(** When the call returns, its searches are those of the handlers. *)
Lemma returned_search_calls (titles : list pyval) (max_results : Z)
    (download_text : bool) (max_chars : option Z) (response : pyval) :
  outcome (search_gutenberg float_repr net (PList titles) max_results
             download_text max_chars) = Ok response ->
  filter is_search_call
    (calls (search_gutenberg float_repr net (PList titles) max_results
              download_text max_chars))
  = map SearchCall (clean_titles float_repr titles).
Proof.
  rewrite search_gutenberg_list. cbn zeta. cbn [calls outcome fst snd].
  unfold enumerate.
  destruct (outcome (gather _ _)) as [results | e] eqn:G; [| discriminate].
  intros _. rewrite (calls_gather_ok _ _ _ G). apply handlers_search_calls.
Qed.

(** Returning or raising, the call searches nothing but cleaned titles. *)
Lemma searched_is_cleaned (titles : list pyval) (max_results : Z)
    (download_text : bool) (max_chars : option Z) (q : string) :
  In (SearchCall q)
     (calls (search_gutenberg float_repr net (PList titles) max_results
               download_text max_chars)) ->
  In q (clean_titles float_repr titles).
Proof.
  rewrite search_gutenberg_list. cbn zeta. cbn [calls fst]. unfold enumerate.
  intros Hin. apply calls_gather_in in Hin.
  assert (Hf : In (SearchCall q)
                 (map SearchCall (clean_titles float_repr titles))).
  { rewrite <- (handlers_search_calls (Z.max 1 max_results) download_text
                  max_chars (clean_titles float_repr titles) 0).
    apply filter_In. now split. }
  apply in_map_iff in Hf as (q' & [= ->] & Hq). exact Hq.
Qed.

(** The [str()] of [None], of a [bool], of an [int], of a list and of a
    dict is not empty and has no white space at either end. *)
Lemma py_str_stripped (v : pyval) :
  is_str v = false -> (forall f, v <> PFloat f) ->
  py_str float_repr v <> "" /\ py_strip (py_str float_repr v) = py_str float_repr v.
Proof.
  intros Hs Hf. destruct v as [| b | n | f | s | l | d].
  - split; [discriminate | reflexivity].
  - destruct b; (split; [discriminate | reflexivity]).
  - split; [apply str_of_Z_nonempty | apply py_strip_nonspace, str_of_Z_nonspace].
  - now contradiction (Hf f).
  - discriminate Hs.
  - split; [discriminate |]. cbn [py_str py_repr].
    change ("[" ++ join ", " (map (py_repr float_repr) l) ++ "]")
      with (String "[" (join ", " (map (py_repr float_repr) l) ++ str1 "]")).
    now apply py_strip_bracketed.
  - split; [discriminate |]. cbn [py_str py_repr].
    match goal with
    | |- py_strip ("{" ++ ?x ++ "}") = _ =>
        change ("{" ++ x ++ "}") with (String "{" (x ++ str1 "}"))
    end.
    now apply py_strip_bracketed.
Qed.

(** C10. Whatever the elements of the list [titles] are, the call is not
    rejected for them: an exception out of a call on a list is one that the
    remote data set off in the handler of some cleaned title, never the
    invalid-argument error, which every value that is not a list gets.  An
    element of any type becomes the cleaned title [str(t).strip()], and is
    dropped when that is empty; an element that is [None], a [bool], an
    [int], a list or a dict is never dropped and is searched under its
    [str()] text as it is (the integer 5 as "5", [None] as "None").  The
    handler of each cleaned title makes exactly one search, for that title,
    and when the call returns a response the searches of its log, which
    lists the calls handler after handler, are those of the cleaned
    titles. *)
Theorem titles_elements_of_any_type (titles : list pyval) (max_results : Z)
    (download_text : bool) (max_chars : option Z) :
  (forall v rest,
     is_str v = false -> (forall f, v <> PFloat f) ->
     clean_titles float_repr (v :: rest)
     = py_str float_repr v :: clean_titles float_repr rest)
  /\ (forall v rest,
        clean_titles float_repr (v :: rest)
        = if (py_strip (py_str float_repr v) =? "")%string
          then clean_titles float_repr rest
          else py_strip (py_str float_repr v) :: clean_titles float_repr rest)
  /\ (forall i q,
        filter is_search_call
          (calls (handle_single_title float_repr net (Z.max 1 max_results)
                    download_text max_chars i q))
        = [SearchCall q])
  /\ (forall response,
        outcome (search_gutenberg float_repr net (PList titles) max_results
                   download_text max_chars) = Ok response ->
        filter is_search_call
          (calls (search_gutenberg float_repr net (PList titles) max_results
                    download_text max_chars))
        = map SearchCall (clean_titles float_repr titles))
  /\ (forall e,
        outcome (search_gutenberg float_repr net (PList titles) max_results
                   download_text max_chars) = Raise e ->
        e <> invalid_argument /\ raised_on_remote_data e /\
        exists i q,
          nth_error (clean_titles float_repr titles) i = Some q /\
          outcome (handle_single_title float_repr net (Z.max 1 max_results)
                     download_text max_chars i q) = Raise e)
  /\ (forall v, is_list v = false ->
        search_gutenberg float_repr net v max_results download_text max_chars
        = ([], Raise invalid_argument)).
Proof.
  split; [| split; [| split; [| split; [| split]]]].
  - intros v rest Hs Hf. destruct (py_str_stripped v Hs Hf) as [Hne Hstrip].
    unfold clean_titles. cbn [map filter]. rewrite Hstrip.
    apply truthy_PStr in Hne. now rewrite Hne.
  - intros v rest. unfold clean_titles. cbn [map filter truthy].
    now destruct (py_strip (py_str float_repr v) =? "")%string.
  - intros i q. apply handle_single_title_calls.
  - apply returned_search_calls.
  - intros e. rewrite search_gutenberg_list. cbn zeta. cbn [outcome snd].
    unfold enumerate.
    destruct (outcome (gather _ _)) as [results | e'] eqn:G; [discriminate |].
    intros [= ->].
    apply (gather_indexed_raise
             (fun i q => handle_single_title float_repr net (Z.max 1 max_results)
                           download_text max_chars i q)) in G as (k & q & Hk & Hr).
    pose proof (handle_single_title_raise _ _ _ _ _ _ Hr) as Hdata.
    split; [now apply remote_data_not_invalid_argument |].
    split; [exact Hdata |]. now exists k, q.
  - intros v Hv. destruct v; try reflexivity. discriminate.
Qed.

(** C8. In a response, the matches of a query whose search returned the raw
    list [raw] come from the first [max(1, max_results_per_title)] entries
    of [raw]: they are the normalized forms, in the same order, of the
    entries of that slice that are objects.  Entries that are not objects
    are passed over and nothing beyond the slice takes their place, so
    there are at most as many matches as the slice is long. *)
Theorem matches_from_prefix_slice (titles : list pyval) (max_results : Z)
    (download_text : bool) (max_chars : option Z) (results : list pyval) :
  outcome (search_gutenberg float_repr net (PList titles) max_results
             download_text max_chars) = Ok (PDict [ ("results", PList results) ]) ->
  forall i q d raw,
    nth_error (clean_titles float_repr titles) i = Some q ->
    gutendex net i q = SearchJson (PDict d) ->
    py_get_default "results" d (PList []) = PList raw ->
    let kept := firstn (Z.to_nat (Z.max 1 max_results)) raw in
    exists matches,
      nth_error results i
      = Some (PDict [ ("query", PStr q); ("matches", PList matches) ]) /\
      Forall2
        (fun jb m =>
           exists book, snd jb = PDict book /\
             outcome (_normalize_book float_repr net (i, fst jb) book
                        download_text max_chars) = Ok m)
        (filter (fun jb => is_dict (snd jb)) (enumerate kept))
        matches /\
      (List.length matches <= List.length kept)%nat /\
      (List.length kept <= Z.to_nat (Z.max 1 max_results))%nat.
Proof.
  intros Hresp i q d raw Hq Hgut Hres kept.
  rewrite search_gutenberg_list in Hresp. cbn zeta in Hresp.
  cbn [outcome snd] in Hresp. unfold enumerate in Hresp.
  destruct (outcome (gather _ _)) as [results' | e] eqn:G; [| discriminate].
  injection Hresp as ->.
  apply (gather_indexed_ok
           (fun i q => handle_single_title float_repr net (Z.max 1 max_results)
                         download_text max_chars i q)) in G as [_ Hnth].
  destruct (Hnth i q Hq) as (e & He & Hrun). cbn [Nat.add] in Hrun.
  rewrite handle_single_title_run, Hgut, Hres in Hrun. cbn zeta in Hrun.
  cbn [outcome snd] in Hrun.
  rewrite slice_to_firstn in Hrun by lia. fold kept in Hrun.
  destruct (outcome (normalize_all float_repr net i 0 kept download_text max_chars))
    as [matches | e'] eqn:Hloop; [| discriminate].
  injection Hrun as <-. exists matches. split; [exact He |].
  apply normalize_all_ok in Hloop. split; [exact Hloop |]. split.
  - apply forall2_length_le in Hloop.
    rewrite length_combine, length_seq, Nat.min_id in Hloop. exact Hloop.
  - apply firstn_le_length.
Qed.

End SearchFacts.

(** ** Isolation of a failed search *)

Section Isolation.

Variable float_repr : spec_float -> string.
Variables net net' : remote.

Lemma normalize_book_local (i j : nat) (book : pydict) (download_text : bool)
    (max_chars : option Z) :
  (forall k u, download net' i k u = download net i k u) ->
  _normalize_book float_repr net' (i, j) book download_text max_chars
  = _normalize_book float_repr net (i, j) book download_text max_chars.
Proof.
  intros Hd. unfold _normalize_book.
  destruct (py_iter _) as [items | e]; [| reflexivity].
  cbn [lift bind].
  destruct (_pick_best_text_format _) as [text_url | e]; [| reflexivity].
  destruct text_url as [| b | n | f | url | l | d]; try reflexivity.
  destruct (download_text && truthy (PStr url)); [| reflexivity].
  rewrite !download_text_outcome. cbn [fst snd]. now rewrite Hd.
Qed.

Lemma normalize_all_local (i : nat) (download_text : bool) (max_chars : option Z)
    (raw : list pyval) (j : nat) :
  (forall k u, download net' i k u = download net i k u) ->
  normalize_all float_repr net' i j raw download_text max_chars
  = normalize_all float_repr net i j raw download_text max_chars.
Proof.
  intros Hd. revert j; induction raw as [| v rest IH]; intros j; [reflexivity |].
  destruct v as [| | | | | | book]; try apply IH.
  cbn [normalize_all]. rewrite normalize_book_local by exact Hd.
  destruct (_normalize_book float_repr net (i, j) book download_text max_chars)
    as [log [m | e]]; [| reflexivity].
  cbn [bind]. now rewrite IH.
Qed.

(** A handler sees the remote side only at its own site. *)
Lemma handle_single_title_local (max_results : Z) (download_text : bool)
    (max_chars : option Z) (i : nat) (q : string) :
  (forall t, gutendex net' i t = gutendex net i t) ->
  (forall k u, download net' i k u = download net i k u) ->
  handle_single_title float_repr net' max_results download_text max_chars i q
  = handle_single_title float_repr net max_results download_text max_chars i q.
Proof.
  intros Hg Hd. rewrite !handle_single_title_run, Hg.
  destruct (gutendex net i q) as [exc | exc | data]; try reflexivity.
  destruct data as [| b | n | f | s | l | d]; try reflexivity.
  destruct (py_get_default "results" d (PList [])); try reflexivity.
  cbn zeta. now rewrite normalize_all_local.
Qed.

End Isolation.

Lemma handle_single_title_failed (float_repr : spec_float -> string) (net : remote)
    (max_results : Z) (download_text : bool) (max_chars : option Z)
    (i : nat) (q : string) :
  search_fails (gutendex net i q) ->
  handle_single_title float_repr net max_results download_text max_chars i q
  = ([SearchCall q],
     Ok (PDict [ ("query", PStr q); ("matches", PList []);
                 ("error", PStr (search_error_text (gutendex net i q))) ])).
Proof.
  intros Hfail. rewrite handle_single_title_run.
  destruct (gutendex net i q) as [exc | exc | data]; try reflexivity.
  destruct data as [| b | n | f | s | l | d]; try contradiction.
  destruct Hfail as (v & Hv & Hl). unfold py_get_default. rewrite Hv.
  destruct v; try reflexivity. discriminate.
Qed.

Lemma search_error_text_nonempty (o : search_outcome) : search_error_text o <> "".
Proof. destruct o; discriminate. Qed.

(** C3. If the search of the cleaned title at place [i] fails (transport
    or status error, timeouts included, undecodable body, "results" that is
    not a list), its handler does not raise: it returns the entry with the
    error text under "error" and the empty list under "matches".  An
    exception out of [search_gutenberg] can then only be one raised by the
    handler of another title; with every other handler returning,
    [search_gutenberg] returns a response that holds that entry at place [i]
    and, at each other place, the entry of that title's own handler, which
    is the same on any remote side that answers that title's site alike. *)
Theorem failed_search_is_isolated (float_repr : spec_float -> string)
    (net : remote) (titles : list pyval) (max_results : Z)
    (download_text : bool) (max_chars : option Z) (i : nat) (q : string) :
  nth_error (clean_titles float_repr titles) i = Some q ->
  search_fails (gutendex net i q) ->
  search_error_text (gutendex net i q) <> ""
  /\ handle_single_title float_repr net (Z.max 1 max_results) download_text
       max_chars i q
     = ([SearchCall q],
        Ok (PDict [ ("query", PStr q); ("matches", PList []);
                    ("error", PStr (search_error_text (gutendex net i q))) ]))
  /\ (forall e,
        outcome (search_gutenberg float_repr net (PList titles) max_results
                   download_text max_chars) = Raise e ->
        exists j q',
          j <> i /\ nth_error (clean_titles float_repr titles) j = Some q' /\
          outcome (handle_single_title float_repr net (Z.max 1 max_results)
                     download_text max_chars j q') = Raise e)
  /\ ((forall j q', j <> i -> nth_error (clean_titles float_repr titles) j = Some q' ->
         exists e,
           outcome (handle_single_title float_repr net (Z.max 1 max_results)
                      download_text max_chars j q') = Ok e) ->
      exists results,
        outcome (search_gutenberg float_repr net (PList titles) max_results
                   download_text max_chars) = Ok (PDict [ ("results", PList results) ]) /\
        List.length results = List.length (clean_titles float_repr titles) /\
        nth_error results i
        = Some (PDict [ ("query", PStr q); ("matches", PList []);
                        ("error", PStr (search_error_text (gutendex net i q))) ]) /\
        (forall j q', j <> i ->
           nth_error (clean_titles float_repr titles) j = Some q' ->
           exists e,
             nth_error results j = Some e /\
             forall net',
               (forall t, gutendex net' j t = gutendex net j t) ->
               (forall k u, download net' j k u = download net j k u) ->
               outcome (handle_single_title float_repr net' (Z.max 1 max_results)
                          download_text max_chars j q') = Ok e)).
Proof.
  intros Hq Hfail.
  pose proof (handle_single_title_failed float_repr net (Z.max 1 max_results)
                download_text max_chars i q Hfail) as Hi.
  split; [apply search_error_text_nonempty |]. split; [exact Hi |]. split.
  - intros e. rewrite search_gutenberg_list. cbn zeta. cbn [outcome snd].
    unfold enumerate.
    destruct (outcome (gather _ _)) as [results | e'] eqn:G; [discriminate |].
    intros [= ->].
    apply (gather_indexed_raise net
             (fun i q => handle_single_title float_repr net (Z.max 1 max_results)
                           download_text max_chars i q)) in G as (j & q' & Hj & Hr).
    cbn [Nat.add] in Hr. exists j, q'. split; [| now split].
    intros ->. rewrite Hq in Hj. injection Hj as Hj. subst q'.
    rewrite Hi in Hr. discriminate Hr.
  - intros Hothers.
    assert (Hall : forall k a,
              nth_error (clean_titles float_repr titles) k = Some a ->
              exists e,
                outcome (handle_single_title float_repr net (Z.max 1 max_results)
                           download_text max_chars (0 + k) a) = Ok e).
    { intros k a Hk. destruct (Nat.eq_dec k i) as [-> | Hne].
      - rewrite Hq in Hk. injection Hk as Hk. subst a. cbn [Nat.add].
        rewrite Hi. cbn [outcome snd]. eauto.
      - now apply Hothers. }
    destruct (gather_indexed_total net
                (fun i q => handle_single_title float_repr net (Z.max 1 max_results)
                              download_text max_chars i q)
                (clean_titles float_repr titles) 0 Hall) as [results G].
    exists results. rewrite search_gutenberg_list. cbn zeta. cbn [outcome snd].
    unfold enumerate. rewrite G. split; [reflexivity |].
    apply (gather_indexed_ok net
             (fun i q => handle_single_title float_repr net (Z.max 1 max_results)
                           download_text max_chars i q)) in G as [Hlen Hnth].
    split; [exact Hlen |]. split.
    + destruct (Hnth i q Hq) as (e & He & Hrun). cbn [Nat.add] in Hrun.
      rewrite Hi in Hrun. cbn [outcome snd] in Hrun.
      injection Hrun as Hrun. now subst e.
    + intros j q' Hne Hj. destruct (Hnth j q' Hj) as (e & He & Hrun).
      cbn [Nat.add] in Hrun. exists e. split; [exact He |].
      intros net' Hg Hd.
      now rewrite (handle_single_title_local float_repr net net' _ _ _ _ _ Hg Hd).
Qed.

(** ** The selection policy *)

(** C4, as amended.  For every [formats] mapping, [text_url] is the value
    under the first of the five preferred keys, in their fixed order, that is
    a non-empty string not ending in ".zip" in any letter case; when no
    preferred key has one, it is the first string value, in the order of the
    mapping, under a key that starts with "text/" and not ending in ".zip"
    in any letter case; it is [None] otherwise.  When the selected
    [text_url] is [None] or empty, normalization makes no remote call, also
    when the download is requested. *)
Theorem text_url_selection (formats : pydict) :
  ((exists pre k post url,
      preferred_keys = (pre ++ k :: post)%list /\
      preferred_hit formats k url /\
      (forall k' u, In k' pre -> ~ preferred_hit formats k' u) /\
      _pick_best_text_format (PDict formats) = Ok (PStr url))
   \/ ((forall k u, In k preferred_keys -> ~ preferred_hit formats k u) /\
       exists pre kv post url,
         formats = (pre ++ kv :: post)%list /\
         fallback_hit kv url /\
         (forall kv' u, In kv' pre -> ~ fallback_hit kv' u) /\
         _pick_best_text_format (PDict formats) = Ok (PStr url))
   \/ ((forall k u, In k preferred_keys -> ~ preferred_hit formats k u) /\
       (forall kv u, In kv formats -> ~ fallback_hit kv u) /\
       _pick_best_text_format (PDict formats) = Ok PNone))
  /\ (forall float_repr net site book download_text max_chars text_url,
        formats_of book = PDict formats ->
        _pick_best_text_format (PDict formats) = Ok text_url ->
        truthy text_url = false ->
        calls (_normalize_book float_repr net site book download_text max_chars) = []).
Proof.
  split.
  - rewrite pick_dict_eq.
    pose proof (pick_preferred_spec formats preferred_keys) as Hp.
    destruct (pick_preferred preferred_keys formats) as [url |].
    + left. destruct Hp as (pre & k & post & Hkeys & Hhit & Hpre).
      now exists pre, k, post, url.
    + right. pose proof (pick_fallback_spec formats) as Hf.
      destruct (pick_fallback formats) as [url |].
      * left. split; [exact Hp |].
        destruct Hf as (pre & kv & post & Hitems & Hhit & Hpre).
        now exists pre, kv, post, url.
      * right. now repeat split.
  - intros float_repr net site book download_text max_chars text_url Hf Hpick Hno.
    rewrite <- Hf in Hpick.
    destruct (py_iter (raw_authors_of book)) as [items | e] eqn:Hit.
    + rewrite (normalize_book_no_download float_repr net site book download_text
                 max_chars items text_url Hit Hpick); [reflexivity |].
      rewrite Hno. apply andb_false_r.
    + unfold _normalize_book. fold (raw_authors_of book). now rewrite Hit.
Qed.

(** C4 as worded fails: an upper-case ".ZIP" and an empty string under a
    preferred key are passed over by the code. *)
Lemma text_url_not_as_worded :
  (let formats := [ ("text/plain", PStr "A.ZIP"); ("text/html", PStr "B.html") ] in
   spec_text_url formats = PStr "A.ZIP" /\
   _pick_best_text_format (PDict formats) = Ok (PStr "B.html"))
  /\ (let formats := [ ("text/plain", PStr ""); ("text/html", PStr "B.html") ] in
      spec_text_url formats = PStr "" /\
      _pick_best_text_format (PDict formats) = Ok (PStr "B.html")).
Proof. repeat split; reflexivity. Qed.

Lemma text_url_selection_witness :
  formats_of [ ("formats", PDict [ ("application/pdf", PStr "http://x/1.pdf") ]) ]
  = PDict [ ("application/pdf", PStr "http://x/1.pdf") ]
  /\ _pick_best_text_format (PDict [ ("application/pdf", PStr "http://x/1.pdf") ])
     = Ok PNone
  /\ truthy PNone = false
  /\ calls (_normalize_book float_repr0 net_demo (0%nat, 0%nat)
              [ ("formats", PDict [ ("application/pdf", PStr "http://x/1.pdf") ]) ]
              true None) = [].
Proof.
  split; [reflexivity |]. split; [reflexivity |]. split; [reflexivity |].
  apply (proj2 (text_url_selection [ ("application/pdf", PStr "http://x/1.pdf") ]))
    with (text_url := PNone); reflexivity.
Defined.

(** ** Concrete runs *)

(** C6 as worded fails twice: a truthy "formats" that is not a mapping makes
    normalization raise, and a value of an unexpected type is kept as it
    is. *)
Lemma normalize_book_not_total_nor_degrading :
  ~ (forall float_repr net site book download_text max_chars,
       exists m,
         outcome (_normalize_book float_repr net site book download_text max_chars)
         = Ok (PDict m))
  /\ ~ (forall float_repr net site book download_text max_chars m,
          outcome (_normalize_book float_repr net site book download_text max_chars)
          = Ok (PDict m) ->
          is_str (py_get "title" book) = false ->
          dict_get "title" m = Some PNone).
Proof.
  split.
  - intros H.
    destruct (H float_repr0 net_down (0%nat, 0%nat) [ ("formats", PStr "abc") ]
                false None) as [m Hm].
    discriminate Hm.
  - intros H.
    specialize (H float_repr0 net_down (0%nat, 0%nat) [ ("title", PInt 42) ]
                  false None _ eq_refl eq_refl).
    discriminate H.
Qed.

Example normalize_book_raises_on_formats :
  outcome (_normalize_book float_repr0 net_down (0%nat, 0%nat)
             [ ("formats", PStr "abc") ] false None)
  = Raise (AttributeError "'str' object has no attribute 'get'")
  /\ outcome (_normalize_book float_repr0 net_down (0%nat, 0%nat)
                [ ("authors", PInt 5) ] false None)
     = Raise (TypeError "'int' object is not iterable").
Proof. split; reflexivity. Qed.

Lemma normalize_book_tolerant_witness :
  iterable_or_falsy (py_get "authors" [ ("id", PInt 1661) ])
  /\ mapping_or_falsy (py_get "formats" [ ("id", PInt 1661) ])
  /\ exists m,
       outcome (_normalize_book float_repr0 net_down (0%nat, 0%nat)
                  [ ("id", PInt 1661) ] true None) = Ok (PDict m) /\
       dict_get "authors" m = Some (PList []) /\
       dict_get "languages" m = Some (PList []) /\
       dict_get "text_url" m = Some PNone.
Proof.
  assert (Ha : iterable_or_falsy (py_get "authors" [ ("id", PInt 1661) ]))
    by (left; reflexivity).
  assert (Hf : mapping_or_falsy (py_get "formats" [ ("id", PInt 1661) ]))
    by (left; reflexivity).
  split; [exact Ha |]. split; [exact Hf |].
  destruct (normalize_book_tolerant float_repr0 net_down (0%nat, 0%nat)
              [ ("id", PInt 1661) ] true None Ha Hf)
    as (m & Hm & _ & _ & _ & _ & Hau & Hla & Hfo).
  exists m. split; [exact Hm |]. split; [now apply Hau |].
  split; [now apply Hla | now apply Hfo].
Defined.

Lemma text_fields_of_match_witness :
  py_iter (raw_authors_of [ ("formats", PDict [ ("text/plain", PStr "http://x/1661.txt") ]) ])
  = Ok []
  /\ _pick_best_text_format
       (formats_of [ ("formats", PDict [ ("text/plain", PStr "http://x/1661.txt") ]) ])
     = Ok (PStr "http://x/1661.txt")
  /\ exists m,
       outcome (_normalize_book float_repr0 net_demo (0%nat, 0%nat)
                  [ ("formats", PDict [ ("text/plain", PStr "http://x/1661.txt") ]) ]
                  true (Some 10)) = Ok (PDict m) /\
       dict_get "text" m = Some (PStr "0123456789") /\
       no_key "text_error" m.
Proof.
  split; [reflexivity |]. split; [reflexivity |].
  destruct (text_fields_of_match float_repr0 net_demo (0%nat, 0%nat)
              [ ("formats", PDict [ ("text/plain", PStr "http://x/1661.txt") ]) ]
              (Some 10) [] (PStr "http://x/1661.txt") eq_refl eq_refl)
    as (Hdl & _).
  destruct (Hdl "http://x/1661.txt" eq_refl) as (m & Hm & Htext).
  - discriminate.
  - exists m. split; [exact Hm | exact Htext].
Defined.

Lemma one_result_per_cleaned_title_witness :
  exists results,
    outcome (search_gutenberg float_repr0 net_demo
               (PList [PStr " a "; PStr ""; PStr "b"]) 1 false None)
    = Ok (PDict [ ("results", PList results) ]) /\
    List.length results = 2%nat /\
    exists entry,
      nth_error results 1 = Some (PDict entry) /\
      dict_get "query" entry = Some (PStr "b").
Proof.
  destruct (proj1 (one_result_per_cleaned_title float_repr0 net_demo
                     [PStr " a "; PStr ""; PStr "b"] 1 false None) _ eq_refl)
    as (results & Hresp & Hlen & Hnth).
  exists results. split; [rewrite <- Hresp; reflexivity |].
  split; [exact Hlen |]. apply Hnth. reflexivity.
Defined.

Lemma invalid_argument_witness :
  is_list (PStr "Dracula") = false
  /\ outcome (search_gutenberg float_repr0 net_demo (PStr "Dracula") 3 false None)
     = Raise invalid_argument
  /\ clean_titles float_repr0 [PStr "  "; PStr ""] = []
  /\ search_gutenberg float_repr0 net_demo (PList [PStr "  "; PStr ""]) 3 true None
     = ([], Ok (PDict [ ("results", PList []) ])).
Proof.
  split; [reflexivity |]. split.
  - apply (proj1 (invalid_argument_iff_not_a_list float_repr0 net_demo
                    (PStr "Dracula") 3 false None)). reflexivity.
  - split; [reflexivity |].
    apply (proj2 (invalid_argument_iff_not_a_list float_repr0 net_demo
                    (PList [PStr "  "; PStr ""]) 3 true None) _ eq_refl).
    reflexivity.
Defined.

Lemma failed_search_is_isolated_witness :
  nth_error (clean_titles float_repr0 [PStr "a"; PStr "b"]) 0 = Some "a"
  /\ search_fails (gutendex net_demo 0 "a")
  /\ exists results second,
       outcome (search_gutenberg float_repr0 net_demo (PList [PStr "a"; PStr "b"])
                  1 false None) = Ok (PDict [ ("results", PList results) ]) /\
       nth_error results 0
       = Some (PDict [ ("query", PStr "a"); ("matches", PList []);
                       ("error", PStr "HTTP error while querying Gutendex: timed out") ]) /\
       nth_error results 1 = Some second.
Proof.
  split; [reflexivity |]. split; [exact I |].
  destruct (failed_search_is_isolated float_repr0 net_demo [PStr "a"; PStr "b"]
              1 false None 0 "a" eq_refl I)
    as (_ & _ & _ & Hresp).
  destruct Hresp as (results & Hresp & _ & Hfirst & Hrest).
  - intros [| [| j]] q' Hne Hq'.
    + now contradiction Hne.
    + injection Hq' as <-. eexists. reflexivity.
    + destruct j; discriminate Hq'.
  - destruct (Hrest 1%nat "b") as (second & Hsecond & _);
      [discriminate | reflexivity |].
    exists results, second. split; [exact Hresp |]. split; [exact Hfirst | exact Hsecond].
Defined.

Lemma matches_from_prefix_slice_witness :
  outcome (search_gutenberg float_repr0 net_demo (PList [PStr "b"]) 0 false None)
  = Ok (PDict [ ("results", PList demo_results) ])
  /\ exists matches,
       nth_error demo_results 0
       = Some (PDict [ ("query", PStr "b"); ("matches", PList matches) ]) /\
       (List.length matches <= 1)%nat.
Proof.
  assert (H : outcome (search_gutenberg float_repr0 net_demo (PList [PStr "b"])
                         0 false None)
              = Ok (PDict [ ("results", PList demo_results) ])) by reflexivity.
  split; [exact H |].
  destruct (matches_from_prefix_slice float_repr0 net_demo [PStr "b"] 0 false None
              demo_results H 0%nat "b"
              [ ("results", PList [demo_book; PInt 3; demo_book]) ]
              [demo_book; PInt 3; demo_book] eq_refl eq_refl eq_refl)
    as (matches & Hnth & _ & Hlen & Hkept).
  exists matches. split; [exact Hnth |].
  exact (Nat.le_trans _ _ _ Hlen Hkept).
Defined.

Lemma titles_elements_of_any_type_witness :
  is_list PNone = false
  /\ search_gutenberg float_repr0 net_demo PNone 3 false None
     = ([], Raise invalid_argument)
  /\ clean_titles float_repr0 [PInt 5; PNone] = ["5"; "None"]
  /\ exists response,
       outcome (search_gutenberg float_repr0 net_demo (PList [PInt 5; PNone]) 3
                  false None) = Ok response /\
       filter is_search_call
         (calls (search_gutenberg float_repr0 net_demo (PList [PInt 5; PNone]) 3
                   false None))
       = [SearchCall "5"; SearchCall "None"].
Proof.
  destruct (titles_elements_of_any_type float_repr0 net_demo [PInt 5; PNone]
              3 false None) as (Hclean & _ & _ & Hcalls & _ & Hreject).
  split; [reflexivity |]. split; [apply Hreject; reflexivity |].
  split.
  - rewrite (Hclean (PInt 5) [PNone] eq_refl); [reflexivity | discriminate].
  - eexists. split; [reflexivity |].
    rewrite (Hcalls _ eq_refl). reflexivity.
Defined.

(** The spec's own examples. *)
Example clamp_to_one :
  exists m,
    demo_results = [ PDict [ ("query", PStr "b"); ("matches", PList [m]) ] ].
Proof. eexists. reflexivity. Qed.

Example non_object_not_replaced :
  let net :=
    {| gutendex := fun _ _ =>
         SearchJson (PDict [ ("results", PList [PInt 3; demo_book]) ]);
       download := fun _ _ _ => FetchHttpError "unused";
       raised_first := 0;
       calls_before_raise := fun _ => 0%nat |} in
  search_gutenberg float_repr0 net (PList [PStr "b"]) 1 false None
  = ([SearchCall "b"],
     Ok (PDict [ ("results",
                  PList [ PDict [ ("query", PStr "b"); ("matches", PList []) ] ]) ])).
Proof. reflexivity. Qed.

Example truncation_ten_of_twenty :
  spec_truncate (Some 10) "0123456789abcdefghij" = "0123456789"
  /\ spec_truncate None "0123456789abcdefghij" = "0123456789abcdefghij"
  /\ spec_truncate (Some 0) "0123456789abcdefghij" = "0123456789abcdefghij".
Proof. repeat split; reflexivity. Qed.

(** * Further properties of the lookup *)

Section ResponseFacts.

Variable float_repr : spec_float -> string.
Variable net : remote.

(** Every entry of a returned response is the entry of the handler of one
    cleaned title. *)
Lemma response_entries (titles : list pyval) (max_results : Z)
    (download_text : bool) (max_chars : option Z) (results : list pyval) :
  outcome (search_gutenberg float_repr net (PList titles) max_results
             download_text max_chars) = Ok (PDict [ ("results", PList results) ]) ->
  forall e, In e results ->
    exists i q,
      nth_error (clean_titles float_repr titles) i = Some q /\
      outcome (handle_single_title float_repr net (Z.max 1 max_results)
                 download_text max_chars i q) = Ok e.
Proof.
  intros Hresp e Hin.
  rewrite search_gutenberg_list in Hresp. cbn zeta in Hresp.
  cbn [outcome snd] in Hresp. unfold enumerate in Hresp.
  destruct (outcome (gather _ _)) as [results' | e'] eqn:G; [| discriminate].
  injection Hresp as ->.
  apply (gather_indexed_ok net
           (fun i q => handle_single_title float_repr net (Z.max 1 max_results)
                         download_text max_chars i q)) in G as [Hlen Hnth].
  apply In_nth_error in Hin as [i Hi].
  assert (Hlt : (i < List.length (clean_titles float_repr titles))%nat).
  { rewrite <- Hlen. apply nth_error_Some. congruence. }
  destruct (nth_error (clean_titles float_repr titles) i) as [q |] eqn:Hq.
  2:{ apply nth_error_None in Hq. lia. }
  destruct (Hnth i q Hq) as (e' & He' & Hrun). cbn [Nat.add] in Hrun.
  exists i, q. split; [exact Hq |]. congruence.
Qed.

Lemma handle_single_title_entry_for (max_results : Z) (download_text : bool)
    (max_chars : option Z) (i : nat) (q : string) (e : pyval) :
  outcome (handle_single_title float_repr net max_results download_text
             max_chars i q) = Ok e ->
  entry_for q (gutendex net i q) e.
Proof.
  rewrite handle_single_title_run. intros H. unfold entry_for.
  destruct (gutendex net i q) as [exc | exc | data] eqn:Hg.
  - left. split; [exact I |]. now injection H as <-.
  - left. split; [exact I |]. now injection H as <-.
  - destruct data as [| b | n | f | s | l | d]; try discriminate H.
    unfold py_get_default in H. cbn [search_fails].
    destruct (dict_get "results" d) as [v |] eqn:Hv.
    + destruct v as [| b | n | f | s | results | d'];
        try (left; split; [eexists; split; [reflexivity | reflexivity] |];
             now injection H as <-).
      right. split; [intros (v & Hv' & Hl); injection Hv' as <-; discriminate Hl |].
      cbn [outcome snd] in H.
      destruct (outcome (normalize_all float_repr net i 0 (slice_to results max_results)
                           download_text max_chars)) as [ms | e']; [| discriminate H].
      injection H as <-. now exists ms.
    + right. split; [intros (v & Hv' & _); discriminate Hv' |].
      cbn [outcome snd] in H.
      destruct (outcome (normalize_all float_repr net i 0 (slice_to [] max_results)
                           download_text max_chars)) as [ms | e']; [| discriminate H].
      injection H as <-. now exists ms.
Qed.

(** X1. A returned response is a dict with the one key "results", bound to
    a list with one entry per cleaned title, in their order.  The entry of a
    title whose search failed holds the query, the empty list under "matches"
    and, under "error", the text of that very failure, which is not empty;
    the entry of a title whose search did not fail holds the query and a list
    under "matches", and no "error". *)
Theorem entries_well_formed (titles : list pyval) (max_results : Z)
    (download_text : bool) (max_chars : option Z) (response : pyval) :
  outcome (search_gutenberg float_repr net (PList titles) max_results
             download_text max_chars) = Ok response ->
  exists results,
    response = PDict [ ("results", PList results) ] /\
    List.length results = List.length (clean_titles float_repr titles) /\
    forall i q,
      nth_error (clean_titles float_repr titles) i = Some q ->
      search_error_text (gutendex net i q) <> "" /\
      exists e,
        nth_error results i = Some e /\
        entry_for q (gutendex net i q) e.
Proof.
  rewrite search_gutenberg_list. cbn zeta. cbn [outcome snd]. unfold enumerate.
  destruct (outcome (gather _ _)) as [results | e'] eqn:G; [| discriminate].
  intros [= <-]. exists results. split; [reflexivity |].
  apply (gather_indexed_ok net
           (fun i q => handle_single_title float_repr net (Z.max 1 max_results)
                         download_text max_chars i q)) in G as [Hlen Hnth].
  split; [exact Hlen |]. intros i q Hq.
  split; [destruct (gutendex net i q); discriminate |].
  destruct (Hnth i q Hq) as (e & He & Hrun). cbn [Nat.add] in Hrun.
  exists e. split; [exact He |].
  exact (handle_single_title_entry_for _ _ _ _ _ _ Hrun).
Qed.

Lemma normalize_book_keys (site : nat * nat) (book : pydict)
    (download_text : bool) (max_chars : option Z) (m : pyval) :
  outcome (_normalize_book float_repr net site book download_text max_chars) = Ok m ->
  match_keyed download_text m.
Proof.
  intros Hm.
  destruct (py_iter (raw_authors_of book)) as [items | e] eqn:Hit.
  2:{ unfold _normalize_book in Hm. fold (raw_authors_of book) in Hm.
      rewrite Hit in Hm. discriminate Hm. }
  destruct (_pick_best_text_format (formats_of book)) as [text_url | e] eqn:Hpick.
  2:{ unfold _normalize_book in Hm. fold (raw_authors_of book) in Hm.
      fold (formats_of book) in Hm.
      rewrite Hit, Hpick in Hm. discriminate Hm. }
  destruct (download_text && truthy text_url) eqn:Hd.
  - apply andb_prop in Hd as [-> Ht].
    destruct (pick_result_shape _ _ Hpick) as [-> | [url ->]]; [discriminate |].
    apply truthy_PStr in Ht.
    rewrite (normalize_book_download float_repr net site book max_chars items url
               Hit Hpick Ht) in Hm.
    rewrite download_text_outcome in Hm. cbn [calls outcome fst snd] in Hm.
    destruct (download net (fst site) (snd site) url); injection Hm as <-;
      eexists; (split; [reflexivity |]).
    + right. now split.
    + now left.
  - rewrite (normalize_book_no_download float_repr net site book download_text
               max_chars items text_url Hit Hpick Hd) in Hm.
    injection Hm as <-. eexists. split; [reflexivity |]. left.
    destruct download_text; reflexivity.
Qed.

Lemma normalize_all_forall (P : pyval -> Prop) (i : nat) (download_text : bool)
    (max_chars : option Z) :
  (forall site book m,
     outcome (_normalize_book float_repr net site book download_text max_chars)
     = Ok m -> P m) ->
  forall raw j ms,
    outcome (normalize_all float_repr net i j raw download_text max_chars) = Ok ms ->
    Forall P ms.
Proof.
  intros HP raw j ms Hms. apply normalize_all_ok in Hms.
  induction Hms as [| jb m l ms' (book & _ & Hm) _ IH]; constructor; eauto.
Qed.

(** The matches of the entry of a handler come out of [_normalize_book]. *)
Lemma handle_single_title_matches (P : pyval -> Prop) (max_results : Z)
    (download_text : bool) (max_chars : option Z) (i : nat) (q : string)
    (e : pyval) :
  (forall site book m,
     outcome (_normalize_book float_repr net site book download_text max_chars)
     = Ok m -> P m) ->
  outcome (handle_single_title float_repr net max_results download_text
             max_chars i q) = Ok e ->
  Forall P (matches_of e).
Proof.
  intros HP. rewrite handle_single_title_run.
  destruct (gutendex net i q) as [exc | exc | data];
    try (intros [= <-]; constructor).
  destruct data as [| b | n | f | s | l | d]; try discriminate.
  destruct (py_get_default "results" d (PList [])) as [| b | n | f | s | results | d'];
    try (intros [= <-]; constructor).
  cbn [outcome snd].
  destruct (outcome (normalize_all float_repr net i 0 (slice_to results max_results)
                       download_text max_chars)) as [ms | e'] eqn:Hl; [| discriminate].
  intros [= <-]. cbn. exact (normalize_all_forall P i _ _ HP _ _ _ Hl).
Qed.

(** X2. In a returned response every match is a dict with the ten keys id,
    title, authors, languages, download_count, subjects, bookshelves,
    copyright, gutenberg_url, text_url in this order, followed by "text"
    exactly when the download was requested, and by "text_error" only then
    and last. *)
Theorem matches_have_fixed_keys (titles : list pyval) (max_results : Z)
    (download_text : bool) (max_chars : option Z) (results : list pyval) :
  outcome (search_gutenberg float_repr net (PList titles) max_results
             download_text max_chars) = Ok (PDict [ ("results", PList results) ]) ->
  forall e m, In e results -> In m (matches_of e) -> match_keyed download_text m.
Proof.
  intros Hresp e m He Hm.
  destruct (response_entries _ _ _ _ _ Hresp e He) as (i & q & _ & Hrun).
  pose proof (handle_single_title_matches (match_keyed download_text) _ _ _ _ _ _
                (fun site book m => normalize_book_keys site book _ _ m) Hrun) as Hall.
  rewrite Forall_forall in Hall. now apply Hall.
Qed.

End ResponseFacts.

(** ** Remote calls *)

Section CallFacts.

Variable float_repr : spec_float -> string.
Variable net : remote.

(** X3. A record that normalizes sets off no remote call unless the
    download is requested and the "text_url" of its match is a non-empty
    string; then it sets off one call, the download of that very URL. *)
Theorem download_goes_to_text_url (site : nat * nat) (book : pydict)
    (download_text : bool) (max_chars : option Z) (m : pydict) :
  outcome (_normalize_book float_repr net site book download_text max_chars)
  = Ok (PDict m) ->
  calls (_normalize_book float_repr net site book download_text max_chars)
  = match dict_get "text_url" m with
    | Some (PStr url) =>
        if download_text && negb (url =? "")%string then [DownloadCall url] else []
    | _ => []
    end.
Proof.
  intros Hm.
  destruct (py_iter (raw_authors_of book)) as [items | e] eqn:Hit.
  2:{ unfold _normalize_book in Hm. fold (raw_authors_of book) in Hm.
      rewrite Hit in Hm. discriminate Hm. }
  destruct (_pick_best_text_format (formats_of book)) as [text_url | e] eqn:Hpick.
  2:{ unfold _normalize_book in Hm. fold (raw_authors_of book) in Hm.
      fold (formats_of book) in Hm.
      rewrite Hit, Hpick in Hm. discriminate Hm. }
  destruct (download_text && truthy text_url) eqn:Hd.
  - apply andb_prop in Hd as [-> Ht].
    destruct (pick_result_shape _ _ Hpick) as [-> | [url ->]]; [discriminate |].
    pose proof Ht as Hne. apply truthy_PStr in Hne.
    revert Hm.
    rewrite (normalize_book_download float_repr net site book max_chars items url
               Hit Hpick Hne).
    rewrite download_text_outcome. cbn [calls outcome fst snd].
    destruct (download net (fst site) (snd site) url); intros [= <-];
      cbn; cbn in Ht; now rewrite Ht.
  - revert Hm.
    rewrite (normalize_book_no_download float_repr net site book download_text
               max_chars items text_url Hit Hpick Hd).
    cbn [calls outcome fst snd]. intros [= <-].
    destruct (pick_result_shape _ _ Hpick) as [-> | [url ->]].
    + destruct download_text; reflexivity.
    + destruct download_text; cbn in *; [now rewrite Hd | reflexivity].
Qed.

Lemma normalize_book_one_call (site : nat * nat) (book : pydict)
    (download_text : bool) (max_chars : option Z) :
  (List.length (calls (_normalize_book float_repr net site book download_text
                         max_chars)) <= 1)%nat
  /\ (download_text = false ->
      calls (_normalize_book float_repr net site book download_text max_chars) = []).
Proof.
  destruct (py_iter (raw_authors_of book)) as [items | e] eqn:Hit.
  2:{ unfold _normalize_book. fold (raw_authors_of book). rewrite Hit.
      split; [cbn; lia | reflexivity]. }
  destruct (_pick_best_text_format (formats_of book)) as [text_url | e] eqn:Hpick.
  2:{ unfold _normalize_book. fold (raw_authors_of book). fold (formats_of book).
      rewrite Hit, Hpick. split; [cbn; lia | reflexivity]. }
  destruct (download_text && truthy text_url) eqn:Hd.
  - apply andb_prop in Hd as [-> Ht].
    destruct (pick_result_shape _ _ Hpick) as [-> | [url ->]]; [discriminate |].
    apply truthy_PStr in Ht.
    rewrite (normalize_book_download float_repr net site book max_chars items url
               Hit Hpick Ht).
    rewrite download_text_outcome. split; [cbn; lia | discriminate].
  - rewrite (normalize_book_no_download float_repr net site book download_text
               max_chars items text_url Hit Hpick Hd).
    split; [cbn; lia | reflexivity].
Qed.

Lemma normalize_all_call_count (i : nat) (download_text : bool)
    (max_chars : option Z) (raw : list pyval) (j : nat) :
  (List.length (calls (normalize_all float_repr net i j raw download_text max_chars))
   <= List.length raw)%nat
  /\ (download_text = false ->
      calls (normalize_all float_repr net i j raw download_text max_chars) = []).
Proof.
  revert j; induction raw as [| v rest IH]; intros j; [split; [cbn; lia | reflexivity] |].
  assert (Hskip : is_dict v = false ->
    normalize_all float_repr net i j (v :: rest) download_text max_chars
    = normalize_all float_repr net i (S j) rest download_text max_chars).
  { destruct v; try reflexivity; discriminate. }
  destruct (is_dict v) eqn:Hv.
  - destruct v as [| | | | | | book]; try discriminate Hv.
    cbn [normalize_all]. rewrite calls_bind.
    destruct (normalize_book_one_call (i, j) book download_text max_chars) as [H1 H0].
    destruct (IH (S j)) as [Hn Hq].
    assert (Hrest :
      calls (bind (normalize_all float_repr net i (S j) rest download_text max_chars)
                  (fun ms => ret ms))
      = calls (normalize_all float_repr net i (S j) rest download_text max_chars)).
    { rewrite calls_bind.
      destruct (outcome (normalize_all float_repr net i (S j) rest download_text
                           max_chars)); cbn; apply app_nil_r. }
    split.
    + rewrite length_app.
      destruct (outcome (_normalize_book float_repr net (i, j) book download_text
                           max_chars)) as [m | e].
      * rewrite calls_bind.
        destruct (outcome (normalize_all float_repr net i (S j) rest download_text
                             max_chars)); cbn [calls ret fst List.length];
          rewrite ?length_app; cbn [List.length]; lia.
      * cbn [List.length]. lia.
    + intros Hdl. rewrite (H0 Hdl). cbn [app].
      destruct (outcome (_normalize_book float_repr net (i, j) book download_text
                           max_chars)) as [m | e]; [| reflexivity].
      rewrite calls_bind, (Hq Hdl).
      destruct (outcome (normalize_all float_repr net i (S j) rest download_text
                           max_chars)); reflexivity.
  - rewrite (Hskip eq_refl). destruct (IH (S j)) as [Hn Hq].
    split; [cbn [List.length]; lia | exact Hq].
Qed.

Lemma handle_single_title_call_count (max_results : Z) (download_text : bool)
    (max_chars : option Z) (i : nat) (q : string) :
  0 <= max_results ->
  (List.length (calls (handle_single_title float_repr net max_results download_text
                         max_chars i q)) <= 1 + Z.to_nat max_results)%nat
  /\ (download_text = false ->
      calls (handle_single_title float_repr net max_results download_text
               max_chars i q) = [SearchCall q]).
Proof.
  intros Hpos. rewrite handle_single_title_run.
  destruct (gutendex net i q) as [exc | exc | data];
    try (split; [cbn; lia | reflexivity]).
  destruct data as [| b | n | f | s | l | d];
    try (split; [cbn; lia | reflexivity]).
  destruct (py_get_default "results" d (PList [])) as [| b | n | f | s | results | d'];
    try (split; [cbn; lia | reflexivity]).
  cbn zeta. cbn [calls fst]. rewrite slice_to_firstn by exact Hpos.
  destruct (normalize_all_call_count i download_text max_chars
              (firstn (Z.to_nat max_results) results) 0) as [Hn Hq].
  split.
  - cbn [List.length].
    pose proof (firstn_le_length (Z.to_nat max_results) results). lia.
  - intros Hdl. now rewrite (Hq Hdl).
Qed.

Lemma handlers_call_count (max_results : Z) (download_text : bool)
    (max_chars : option Z) (qs : list string) (s : nat) :
  0 <= max_results ->
  (List.length
     (List.concat
        (map calls
             (map (fun iq => handle_single_title float_repr net max_results
                               download_text max_chars (fst iq) (snd iq))
                  (combine (seq s (List.length qs)) qs))))
   <= List.length qs * (1 + Z.to_nat max_results))%nat
  /\ (download_text = false ->
      List.concat
        (map calls
             (map (fun iq => handle_single_title float_repr net max_results
                               download_text max_chars (fst iq) (snd iq))
                  (combine (seq s (List.length qs)) qs)))
      = map SearchCall qs).
Proof.
  intros Hpos.
  revert s; induction qs as [| q qs IH]; intros s; [split; [cbn; lia | reflexivity] |].
  cbn [List.length seq combine map List.concat fst snd].
  destruct (handle_single_title_call_count max_results download_text max_chars s q
              Hpos) as [Hn Hq].
  destruct (IH (S s)) as [IHn IHq].
  split.
  - rewrite length_app. lia.
  - intros Hdl. now rewrite (Hq Hdl), (IHq Hdl).
Qed.

(** X4. Without the download, the handler of a title makes one remote
    call, the search of that title, whatever the search returns.  When
    [search_gutenberg] returns a response, its log, which lists the calls
    handler after handler, is exactly one search per cleaned title; returning
    or raising, every call it makes is the search of a cleaned title. *)
Theorem searches_only_without_download (titles : list pyval) (max_results : Z)
    (max_chars : option Z) :
  (forall i q,
     calls (handle_single_title float_repr net (Z.max 1 max_results) false
              max_chars i q) = [SearchCall q])
  /\ (forall response,
        outcome (search_gutenberg float_repr net (PList titles) max_results false
                   max_chars) = Ok response ->
        calls (search_gutenberg float_repr net (PList titles) max_results false
                 max_chars)
        = map SearchCall (clean_titles float_repr titles))
  /\ (forall c,
        In c (calls (search_gutenberg float_repr net (PList titles) max_results
                       false max_chars)) ->
        exists q, c = SearchCall q /\ In q (clean_titles float_repr titles)).
Proof.
  split; [| split].
  - intros i q.
    now apply (handle_single_title_call_count (Z.max 1 max_results) false
                 max_chars i q); [lia |].
  - intros response. rewrite search_gutenberg_list. cbn zeta.
    cbn [calls outcome fst snd]. unfold enumerate.
    destruct (outcome (gather _ _)) as [results | e] eqn:G; [| discriminate].
    intros _. rewrite (calls_gather_ok _ _ _ G).
    apply handlers_call_count; [lia | reflexivity].
  - intros c. rewrite search_gutenberg_list. cbn zeta. cbn [calls fst].
    unfold enumerate. intros Hin. apply calls_gather_in in Hin.
    rewrite (proj2 (handlers_call_count (Z.max 1 max_results) false max_chars
                      (clean_titles float_repr titles) 0 ltac:(lia)) eq_refl) in Hin.
    apply in_map_iff in Hin as (q & <- & Hq). now exists q.
Qed.

(** X5. [search_gutenberg] on a list makes at most
    [n * (1 + max(1, max_results_per_title))] remote calls, [n] being the
    number of cleaned titles: a search and at most one download per kept
    record for each. *)
Theorem remote_calls_bounded (titles : list pyval) (max_results : Z)
    (download_text : bool) (max_chars : option Z) :
  (List.length (calls (search_gutenberg float_repr net (PList titles) max_results
                         download_text max_chars))
   <= List.length (clean_titles float_repr titles)
      * (1 + Z.to_nat (Z.max 1 max_results)))%nat.
Proof.
  rewrite search_gutenberg_list. cbn zeta. cbn [calls fst]. unfold enumerate.
  etransitivity; [apply calls_gather_length |].
  apply handlers_call_count. lia.
Qed.

(** X6. If the search of one cleaned title returns a JSON body that is not
    an object, the whole call raises, whatever the other searches return:
    no response, hence no entry of any other title, is returned. *)
Theorem non_object_body_aborts (titles : list pyval) (max_results : Z)
    (download_text : bool) (max_chars : option Z) (i : nat) (q : string)
    (data : pyval) :
  nth_error (clean_titles float_repr titles) i = Some q ->
  gutendex net i q = SearchJson data ->
  is_dict data = false ->
  exists e,
    outcome (search_gutenberg float_repr net (PList titles) max_results
               download_text max_chars) = Raise e /\
    raised_on_remote_data e.
Proof.
  intros Hq Hg Hdata.
  rewrite search_gutenberg_list. cbn zeta. cbn [outcome snd]. unfold enumerate.
  destruct (outcome (gather _ _)) as [results | e] eqn:G.
  - apply (gather_indexed_ok net
             (fun i q => handle_single_title float_repr net (Z.max 1 max_results)
                           download_text max_chars i q)) in G as [_ Hnth].
    destruct (Hnth i q Hq) as (e & _ & Hrun). cbn [Nat.add] in Hrun.
    rewrite handle_single_title_run, Hg in Hrun.
    destruct data; discriminate.
  - exists e. split; [reflexivity |].
    apply (gather_indexed_raise net
             (fun i q => handle_single_title float_repr net (Z.max 1 max_results)
                           download_text max_chars i q)) in G as (k & q' & _ & Hr).
    exact (handle_single_title_raise _ _ _ _ _ _ _ _ Hr).
Qed.

(** X7. A JSON object without the key "results", or with an empty list
    under it, is no failure: the entry of the query has no match and no
    "error". *)
Theorem missing_results_is_no_error (max_results : Z) (download_text : bool)
    (max_chars : option Z) (i : nat) (q : string) (d : pydict) :
  gutendex net i q = SearchJson (PDict d) ->
  dict_get "results" d = None \/ dict_get "results" d = Some (PList []) ->
  handle_single_title float_repr net max_results download_text max_chars i q
  = ([SearchCall q], Ok (PDict [ ("query", PStr q); ("matches", PList []) ])).
Proof.
  intros Hg Hd. rewrite handle_single_title_run, Hg.
  assert (Hr : py_get_default "results" d (PList []) = PList []).
  { unfold py_get_default. now destruct Hd as [-> | ->]. }
  rewrite Hr. unfold slice_to.
  destruct (0 <=? max_results); rewrite firstn_nil; reflexivity.
Qed.

Lemma clean_titles_fixed (l : list string) :
  Forall (fun t => t <> "" /\ py_strip t = t) l ->
  clean_titles float_repr (map PStr l) = l.
Proof.
  rewrite clean_titles_strings.
  induction 1 as [| t l [Hne Hs] _ IH]; [reflexivity |].
  cbn [map filter]. rewrite Hs, IH.
  destruct (String.eqb_spec t ""); [contradiction | reflexivity].
Qed.

Lemma clean_titles_idempotent (titles : list pyval) :
  clean_titles float_repr (map PStr (clean_titles float_repr titles))
  = clean_titles float_repr titles.
Proof.
  apply clean_titles_fixed, Forall_forall. intros q Hin.
  apply clean_titles_in in Hin as [Hne (t & _ & ->)].
  split; [exact Hne | apply py_strip_idempotent].
Qed.

(** X8. Cleaning is stable: calling [search_gutenberg] on the cleaned
    titles of a list gives the same calls and the same response or
    exception as calling it on the list itself. *)
Theorem search_of_cleaned_titles (titles : list pyval) (max_results : Z)
    (download_text : bool) (max_chars : option Z) :
  search_gutenberg float_repr net
    (PList (map PStr (clean_titles float_repr titles)))
    max_results download_text max_chars
  = search_gutenberg float_repr net (PList titles) max_results download_text
      max_chars.
Proof.
  rewrite !search_gutenberg_list. cbn zeta.
  now rewrite clean_titles_idempotent.
Qed.

End CallFacts.

(** ** More on the fields of a match *)

Lemma dict_get_In (k : string) (d : pydict) (v : pyval) :
  dict_get k d = Some v -> In (k, v) d.
Proof.
  induction d as [| [k' v'] d IH]; simpl; [discriminate |].
  destruct (String.eqb_spec k' k) as [-> | Hne].
  - intros [= ->]. now left.
  - intros H. right. now apply IH.
Qed.

Lemma preferred_keys_are_text :
  Forall (fun k => startswith k "text/" = true) preferred_keys.
Proof. repeat constructor. Qed.

(** X9. Whatever the mapping holds, the URL that [_pick_best_text_format]
    returns is a string bound in the mapping under a key that starts with
    "text/", and it does not end in ".zip" in any letter case. *)
Theorem picked_url_is_a_text_entry (formats : pydict) (url : string) :
  _pick_best_text_format (PDict formats) = Ok (PStr url) ->
  exists key,
    In (key, PStr url) formats /\
    startswith key "text/" = true /\
    is_zip url = false.
Proof.
  rewrite pick_dict_eq.
  pose proof (pick_preferred_spec formats preferred_keys) as Hp.
  destruct (pick_preferred preferred_keys formats) as [u |].
  - intros [= ->]. destruct Hp as (pre & k & post & Hkeys & (Hget & _ & Hzip) & _).
    exists k. split; [now apply dict_get_In |]. split; [| exact Hzip].
    pose proof preferred_keys_are_text as Hall. rewrite Forall_forall in Hall.
    apply Hall. rewrite Hkeys. apply in_elt.
  - pose proof (pick_fallback_spec formats) as Hf.
    destruct (pick_fallback formats) as [u |]; [| discriminate].
    intros [= ->].
    destruct Hf as (pre & [key v] & post & -> & (Hv & Hs & Hzip) & _).
    cbn [fst snd] in *. subst v. exists key. split; [apply in_elt |]. now split.
Qed.

Lemma substring_length_le (n : nat) (s : string) :
  (String.length (substring 0 n s) <= n)%nat.
Proof.
  revert s; induction n as [| n IH]; intros [| c s]; simpl; try lia.
  specialize (IH s). lia.
Qed.

Section FieldFacts.

Variable float_repr : spec_float -> string.
Variable net : remote.

(** What a record that normalizes gives, in one equation. *)
Lemma normalize_book_inversion (site : nat * nat) (book : pydict)
    (download_text : bool) (max_chars : option Z) (m : pydict) :
  outcome (_normalize_book float_repr net site book download_text max_chars)
  = Ok (PDict m) ->
  exists items text_url extra,
    py_iter (raw_authors_of book) = Ok items /\
    _pick_best_text_format (formats_of book) = Ok text_url /\
    m = (core_fields float_repr book items text_url ++ extra)%list /\
    (dict_get "text" extra = None \/ dict_get "text" extra = Some PNone \/
     exists url body,
       text_url = PStr url /\
       download net (fst site) (snd site) url = FetchText body /\
       dict_get "text" extra = Some (PStr (spec_truncate max_chars body))).
Proof.
  intros Hm.
  destruct (py_iter (raw_authors_of book)) as [items | e] eqn:Hit.
  2:{ unfold _normalize_book in Hm. fold (raw_authors_of book) in Hm.
      rewrite Hit in Hm. discriminate Hm. }
  destruct (_pick_best_text_format (formats_of book)) as [text_url | e] eqn:Hpick.
  2:{ unfold _normalize_book in Hm. fold (raw_authors_of book) in Hm.
      fold (formats_of book) in Hm.
      rewrite Hit, Hpick in Hm. discriminate Hm. }
  exists items, text_url.
  destruct (download_text && truthy text_url) eqn:Hd.
  - apply andb_prop in Hd as [-> Ht].
    destruct (pick_result_shape _ _ Hpick) as [-> | [url ->]]; [discriminate |].
    apply truthy_PStr in Ht. revert Hm.
    rewrite (normalize_book_download float_repr net site book max_chars items url
               Hit Hpick Ht).
    rewrite download_text_outcome. cbn [calls outcome fst snd].
    destruct (download net (fst site) (snd site) url) as [exc | body] eqn:Hdl;
      intros [= <-]; eexists; (split; [reflexivity |]); (split; [reflexivity |]);
      (split; [reflexivity |]).
    + right. left. reflexivity.
    + right. right. now exists url, body.
  - revert Hm.
    rewrite (normalize_book_no_download float_repr net site book download_text
               max_chars items text_url Hit Hpick Hd).
    intros [= <-]. eexists. split; [reflexivity |]. split; [reflexivity |].
    split; [reflexivity |].
    destruct download_text; [right; left | left]; reflexivity.
Qed.

(** X10. With a positive [max_chars], the "text" of a match is never longer
    than [max_chars] characters. *)
Theorem text_within_max_chars (site : nat * nat) (book : pydict)
    (download_text : bool) (n : Z) (m : pydict) (t : string) :
  0 < n ->
  outcome (_normalize_book float_repr net site book download_text (Some n))
  = Ok (PDict m) ->
  dict_get "text" m = Some (PStr t) ->
  (String.length t <= Z.to_nat n)%nat.
Proof.
  intros Hn Hm Ht.
  destruct (normalize_book_inversion _ _ _ _ _ Hm)
    as (items & text_url & extra & _ & _ & -> & Hextra).
  change (dict_get "text" extra = Some (PStr t)) in Ht.
  destruct Hextra as [H | [H | (url & body & _ & _ & H)]]; rewrite H in Ht;
    try discriminate Ht.
  injection Ht as <-. unfold spec_truncate.
  apply Z.ltb_lt in Hn. rewrite Hn. apply substring_length_le.
Qed.

(** X11. The "authors" of a match are, in the order of the record, the
    name/birth_year/death_year entries of the objects of the record's
    "authors" list (a missing key of an author giving [None]); what is not an
    object in that list is left out. *)
Theorem authors_of_match (site : nat * nat) (book : pydict)
    (download_text : bool) (max_chars : option Z) (m : pydict)
    (raw : list pyval) :
  py_get "authors" book = PList raw ->
  outcome (_normalize_book float_repr net site book download_text max_chars)
  = Ok (PDict m) ->
  dict_get "authors" m = Some (PList (map author_entry (filter is_dict raw))).
Proof.
  intros Hraw Hm.
  destruct (normalize_book_inversion _ _ _ _ _ Hm)
    as (items & text_url & extra & Hit & _ & -> & _).
  unfold raw_authors_of, py_or in Hit. rewrite Hraw in Hit.
  assert (Hitems : items = raw).
  { destruct raw; cbn in Hit; now injection Hit as <-. }
  subst items. cbn. now rewrite collect_authors_filter_map.
Qed.

(** X12. For an integer id the "gutenberg_url" of the match is the fixed
    prefix followed by the decimal text of the id, and two matches with
    integer ids have the same URL only when the ids are equal. *)
Theorem gutenberg_url_identifies_id (site site' : nat * nat)
    (book book' : pydict) (download_text download_text' : bool)
    (max_chars max_chars' : option Z) (m m' : pydict) (n n' : Z) :
  py_get "id" book = PInt n ->
  py_get "id" book' = PInt n' ->
  outcome (_normalize_book float_repr net site book download_text max_chars)
  = Ok (PDict m) ->
  outcome (_normalize_book float_repr net site' book' download_text' max_chars')
  = Ok (PDict m') ->
  dict_get "gutenberg_url" m
  = Some (PStr ("https://www.gutenberg.org/ebooks/" ++ str_of_Z n))
  /\ (dict_get "gutenberg_url" m = dict_get "gutenberg_url" m' -> n = n').
Proof.
  intros Hid Hid' Hm Hm'.
  pose proof (gutenberg_url_of_match float_repr net _ _ _ _ _ Hm) as Hu.
  pose proof (gutenberg_url_of_match float_repr net _ _ _ _ _ Hm') as Hu'.
  rewrite Hid in Hu. rewrite Hid' in Hu'.
  split; [exact Hu |].
  rewrite Hu, Hu'. intros [= H]. now apply str_of_Z_inj.
Qed.

End FieldFacts.

(** * Properties of [prompt_for_titles] *)

Lemma str_contains_app (c : ascii) (a b : string) :
  str_contains c (a ++ b) = str_contains c a || str_contains c b.
Proof.
  induction a as [| x a IH]; simpl; [reflexivity |].
  now rewrite IH, orb_assoc.
Qed.

Lemma str_contains_rev (c : ascii) (s : string) :
  str_contains c (string_rev s) = str_contains c s.
Proof.
  induction s as [| x s IH]; simpl; [reflexivity |].
  rewrite str_contains_app, IH. simpl. rewrite orb_false_r. apply orb_comm.
Qed.

Lemma lstrip_keeps_absent (c : ascii) (s : string) :
  str_contains c s = false -> str_contains c (lstrip s) = false.
Proof.
  induction s as [| x s IH]; simpl; [trivial |].
  intros H. apply orb_false_elim in H as [Hx Hs].
  destruct (py_isspace x); [now apply IH |].
  simpl. now rewrite Hx, Hs.
Qed.

Lemma py_strip_keeps_absent (c : ascii) (s : string) :
  str_contains c s = false -> str_contains c (py_strip s) = false.
Proof.
  intros H. unfold py_strip, rstrip.
  rewrite str_contains_rev. apply lstrip_keeps_absent.
  rewrite str_contains_rev. now apply lstrip_keeps_absent.
Qed.

Lemma replace_char_removes (a b : ascii) (s : string) :
  a <> b -> str_contains a (replace_char a b s) = false.
Proof.
  intros Hab. induction s as [| x s IH]; simpl; [reflexivity |].
  rewrite IH, orb_false_r.
  destruct (Ascii.eqb_spec x a) as [-> | Hx].
  - apply Ascii.eqb_neq. congruence.
  - now apply Ascii.eqb_neq.
Qed.

Lemma replace_char_absent (a b : ascii) (s : string) :
  str_contains a s = false -> replace_char a b s = s.
Proof.
  induction s as [| x s IH]; simpl; [reflexivity |].
  intros H. apply orb_false_elim in H as [Hx Hs].
  now rewrite Hx, IH.
Qed.

Lemma replace_char_app (a b : ascii) (s t : string) :
  replace_char a b (s ++ t) = replace_char a b s ++ replace_char a b t.
Proof.
  induction s as [| x s IH]; simpl; [reflexivity | now rewrite IH].
Qed.

Lemma split_char_nonempty (sep : ascii) (s : string) : split_char sep s <> [].
Proof.
  destruct s as [| c s]; simpl; [discriminate |].
  destruct (c =? sep)%char; [discriminate |].
  destruct (split_char sep s); discriminate.
Qed.

(** No chunk of a split holds the separator, and a chunk holds no
    character that the string does not hold. *)
Lemma split_char_chunks (sep : ascii) (s : string) :
  Forall (fun chunk =>
            str_contains sep chunk = false /\
            forall c, str_contains c s = false -> str_contains c chunk = false)
         (split_char sep s).
Proof.
  induction s as [| x s IH]; simpl.
  - constructor; [| constructor]. split; [reflexivity | trivial].
  - destruct (Ascii.eqb_spec x sep) as [-> | Hx].
    + constructor.
      * split; [reflexivity | reflexivity].
      * eapply Forall_impl; [| exact IH]. intros chunk [H1 H2]. split; [exact H1 |].
        intros c Hc. apply orb_false_elim in Hc as [_ Hc]. now apply H2.
    + destruct (split_char sep s) as [| chunk chunks] eqn:Hs.
      * now apply split_char_nonempty in Hs.
      * inversion IH as [| ? ? [H1 H2] Hrest]; subst. constructor.
        -- split.
           ++ simpl. rewrite H1, orb_false_r. now apply Ascii.eqb_neq.
           ++ intros c Hc. apply orb_false_elim in Hc as [Hcx Hc].
              simpl. now rewrite Hcx, (H2 c Hc).
        -- eapply Forall_impl; [| exact Hrest]. intros ch [H1' H2'].
           split; [exact H1' |].
           intros c Hc. apply orb_false_elim in Hc as [_ Hc]. now apply H2'.
Qed.

Lemma collect_titles_in (chunks : list string) (t : string) :
  In t (collect_titles chunks)
  <-> t <> "" /\ exists chunk, In chunk chunks /\ t = py_strip chunk.
Proof.
  induction chunks as [| chunk rest IH]; simpl.
  - split; [intros [] | intros [_ (c & [] & _)]].
  - destruct (String.eqb_spec (py_strip chunk) "") as [He | Hne]; simpl.
    + rewrite IH. split.
      * intros [Hne (c & Hc & ->)]. split; [exact Hne |]. exists c. auto.
      * intros [Hne (c & [<- | Hc] & ->)]; [contradiction |].
        split; [exact Hne |]. now exists c.
    + split.
      * intros [<- | Hin].
        -- split; [exact Hne |]. exists chunk. auto.
        -- apply IH in Hin as [Ht (c & Hc & ->)]. split; [exact Ht |]. exists c. auto.
      * intros [Ht (c & [<- | Hc] & ->)]; [now left |].
        right. apply IH. split; [exact Ht |]. now exists c.
Qed.

Lemma prompted_titles_are_clean_aux (typed t : string) :
  In t (prompt_for_titles typed) -> title_clean t.
Proof.
  unfold prompt_for_titles.
  destruct (negb (truthy (PStr (py_strip typed)))); [intros [] |].
  intros Hin. apply collect_titles_in in Hin as [Hne (chunk & Hchunk & ->)].
  pose proof (split_char_chunks "," (replace_char ";" "," (py_strip typed))) as Hall.
  rewrite Forall_forall in Hall. destruct (Hall chunk Hchunk) as [Hcomma Hother].
  split; [exact Hne |]. split; [apply py_strip_idempotent |].
  split; apply py_strip_keeps_absent; [exact Hcomma |].
  apply Hother. apply replace_char_removes. discriminate.
Qed.

(** X13. Every title that [prompt_for_titles] returns is non-empty, has no
    white space at either end and holds neither a comma nor a semicolon;
    a blank line gives no title. *)
Theorem prompted_titles_are_clean (typed : string) :
  Forall title_clean (prompt_for_titles typed)
  /\ (py_strip typed = "" -> prompt_for_titles typed = []).
Proof.
  split.
  - apply Forall_forall. intros t. apply prompted_titles_are_clean_aux.
  - intros H. unfold prompt_for_titles. now rewrite H.
Qed.

(** X14. The titles read at the prompt go through the cleaning of
    [search_gutenberg] unchanged.  When the call on them returns a response,
    each has been searched under the very text that [prompt_for_titles]
    returned (the log lists the searches handler after handler); and
    returning or raising, the call searches nothing but these texts. *)
Theorem prompted_titles_are_searched_as_typed (float_repr : spec_float -> string)
    (net : remote) (typed : string) (max_results : Z) (download_text : bool)
    (max_chars : option Z) :
  clean_titles float_repr (map PStr (prompt_for_titles typed))
  = prompt_for_titles typed
  /\ (forall response,
        outcome (search_gutenberg float_repr net
                   (PList (map PStr (prompt_for_titles typed)))
                   max_results download_text max_chars) = Ok response ->
        filter is_search_call
          (calls (search_gutenberg float_repr net
                    (PList (map PStr (prompt_for_titles typed)))
                    max_results download_text max_chars))
        = map SearchCall (prompt_for_titles typed))
  /\ (forall q,
        In (SearchCall q)
           (calls (search_gutenberg float_repr net
                     (PList (map PStr (prompt_for_titles typed)))
                     max_results download_text max_chars)) ->
        In q (prompt_for_titles typed)).
Proof.
  assert (Hfix : clean_titles float_repr (map PStr (prompt_for_titles typed))
                 = prompt_for_titles typed).
  { apply clean_titles_fixed, Forall_forall. intros t Hin.
    apply prompted_titles_are_clean_aux in Hin as (H1 & H2 & _). now split. }
  split; [exact Hfix |]. split.
  - intros response Hresp.
    rewrite (returned_search_calls float_repr net _ _ _ _ _ Hresp).
    now rewrite Hfix.
  - intros q Hin. apply searched_is_cleaned in Hin. now rewrite Hfix in Hin.
Qed.

Lemma py_strip_fixed_parts (t : string) :
  py_strip t = t -> lstrip t = t /\ rstrip t = t.
Proof.
  intros H. destruct (py_strip_trimmed t) as [Hl Hr]. now rewrite H in Hl, Hr.
Qed.

Lemma join_cons (sep t t' : string) (ts : list string) :
  join sep (t :: t' :: ts) = t ++ sep ++ join sep (t' :: ts).
Proof. reflexivity. Qed.

Lemma join_separated (c : ascii) (titles : list string) :
  c = ","%char \/ c = ";"%char ->
  Forall title_clean titles ->
  titles <> [] ->
  let joined := join (String c " ") titles in
  joined <> "" /\ lstrip joined = joined /\ rstrip joined = joined /\
  replace_char ";" "," joined = join ", " titles.
Proof.
  intros Hc Hall. induction Hall as [| t ts (Hne & Hs & Hcomma & Hsemi) Hrest IH];
    [congruence |].
  intros _. destruct (py_strip_fixed_parts t Hs) as [Hl Hr].
  destruct ts as [| t' ts].
  - cbn. repeat split; auto. now apply replace_char_absent.
  - destruct IH as (IHne & IHl & IHr & IHrep); [discriminate |].
    cbn zeta in *. rewrite !join_cons.
    set (rest := join (String c " ") (t' :: ts)) in *.
    split; [destruct t; [congruence | discriminate] |].
    split; [rewrite lstrip_app; rewrite Hl; [reflexivity | exact Hne] |].
    assert (Hsep : rstrip (String c " " ++ rest) = String c " " ++ rest).
    { rewrite rstrip_app; rewrite IHr; [reflexivity | exact IHne]. }
    split.
    + rewrite rstrip_app; rewrite Hsep; [reflexivity | discriminate].
    + rewrite !replace_char_app, IHrep, (replace_char_absent _ _ _ Hsemi).
      destruct Hc as [-> | ->]; reflexivity.
Qed.

Lemma split_char_absent (sep : ascii) (s : string) :
  str_contains sep s = false -> split_char sep s = [s].
Proof.
  induction s as [| x s IH]; simpl; [reflexivity |].
  intros H. apply orb_false_elim in H as [Hx Hs].
  now rewrite Hx, (IH Hs).
Qed.

Lemma split_char_at_sep (sep : ascii) (a b : string) :
  str_contains sep a = false ->
  split_char sep (a ++ String sep b) = a :: split_char sep b.
Proof.
  induction a as [| x a IH]; simpl.
  - intros _. now rewrite Ascii.eqb_refl.
  - intros H. apply orb_false_elim in H as [Hx Ha].
    now rewrite Hx, (IH Ha).
Qed.

Lemma split_joined (ts : list string) (p t : string) :
  str_contains "," p = false ->
  str_contains "," t = false ->
  Forall (fun t' => str_contains "," t' = false) ts ->
  split_char "," (p ++ join ", " (t :: ts)) = (p ++ t) :: map (String " ") ts.
Proof.
  revert p t; induction ts as [| t' ts IH]; intros p t Hp Ht Hts.
  - cbn [join map]. apply split_char_absent.
    now rewrite str_contains_app, Hp, Ht.
  - inversion Hts as [| ? ? Ht' Hts']; subst.
    rewrite join_cons. cbn [append].
    rewrite <- string_app_assoc, split_char_at_sep
      by now rewrite str_contains_app, Hp, Ht.
    change (String " " (join ", " (t' :: ts))) with (" " ++ join ", " (t' :: ts)).
    now rewrite (IH " " t' eq_refl Ht' Hts').
Qed.

Lemma collect_titles_spaced (ts : list string) :
  Forall title_clean ts -> collect_titles (map (String " ") ts) = ts.
Proof.
  induction 1 as [| t ts (Hne & Hs & _) _ IH]; [reflexivity |].
  cbn [map collect_titles].
  change (py_strip (String " " t)) with (py_strip t).
  rewrite Hs, IH. apply truthy_PStr in Hne. now rewrite Hne.
Qed.

(** X15. Typing clean titles separated by a comma or a semicolon and a space
    gives the titles back: [prompt_for_titles] returns exactly them, in
    order. *)
Theorem prompt_reads_back_titles (c : ascii) (titles : list string) :
  c = ","%char \/ c = ";"%char ->
  Forall title_clean titles ->
  prompt_for_titles (join (String c " ") titles) = titles.
Proof.
  intros Hc Hall. destruct titles as [| t ts]; [reflexivity |].
  destruct (join_separated c (t :: ts) Hc Hall) as (Hne & Hl & Hr & Hrep);
    [discriminate |].
  cbn zeta in *. unfold prompt_for_titles.
  assert (Hstrip : py_strip (join (String c " ") (t :: ts)) = join (String c " ") (t :: ts)).
  { unfold py_strip. now rewrite Hl, Hr. }
  rewrite Hstrip. apply truthy_PStr in Hne. rewrite Hne. cbn [negb].
  rewrite Hrep.
  inversion Hall as [| ? ? Ht Hts]; subst.
  change (join ", " (t :: ts)) with ("" ++ join ", " (t :: ts)).
  rewrite split_joined.
  - cbn [append collect_titles]. destruct Ht as (Htne & Hts' & _).
    rewrite Hts'. apply truthy_PStr in Htne. rewrite Htne.
    now rewrite collect_titles_spaced.
  - reflexivity.
  - apply Ht.
  - eapply Forall_impl; [| exact Hts]. intros t' Ht'. apply Ht'.
Qed.

(** * Properties of the tool call of the app *)

Lemma dict_get_set_same (k : string) (v : pyval) (d : pydict) :
  dict_get k (dict_set k v d) = Some v.
Proof.
  induction d as [| [k' v'] d IH]; simpl.
  - now rewrite String.eqb_refl.
  - destruct (String.eqb_spec k' k) as [-> | Hne]; simpl.
    + now rewrite String.eqb_refl.
    + apply String.eqb_neq in Hne. now rewrite Hne.
Qed.

Lemma dict_get_set_other (k k' : string) (v : pyval) (d : pydict) :
  k <> k' -> dict_get k (dict_set k' v d) = dict_get k d.
Proof.
  intros Hne. induction d as [| [k0 v0] d IH]; simpl.
  - destruct (String.eqb_spec k' k); [congruence | reflexivity].
  - destruct (String.eqb_spec k0 k') as [-> | H0]; simpl.
    + destruct (String.eqb_spec k' k); [congruence | reflexivity].
    + destruct (String.eqb_spec k0 k); [reflexivity | exact IH].
Qed.

Lemma dict_get_absent (k : string) (d : pydict) :
  ~ In k (dict_keys d) -> dict_get k d = None.
Proof.
  induction d as [| [k' v'] d IH]; simpl; [reflexivity |].
  intros H. destruct (String.eqb_spec k' k) as [-> | Hne]; [tauto |].
  apply IH. tauto.
Qed.

(** Looking a key up in [{**a, **b}]: the binding of [b] when there is one,
    that of [a] otherwise. *)
Lemma dict_get_merge (k : string) (a b : pydict) :
  NoDup (dict_keys b) ->
  dict_get k (dict_merge a b)
  = match dict_get k b with
    | Some v => Some v
    | None => dict_get k a
    end.
Proof.
  unfold dict_merge. revert a.
  induction b as [| [k' v'] b IH]; intros a Hb; [reflexivity |].
  inversion Hb as [| ? ? Hnotin Hb']; subst.
  cbn [fold_left fst snd dict_get]. rewrite (IH _ Hb').
  destruct (String.eqb_spec k' k) as [-> | Hne].
  - rewrite (dict_get_absent _ _ Hnotin). apply dict_get_set_same.
  - destruct (dict_get k b); [reflexivity |].
    apply dict_get_set_other. congruence.
Qed.

Section AppFacts.

Variable float_repr : spec_float -> string.
Variable net : remote.
Variable int_of_str : string -> option Z.
Variable json_loads : string -> option pyval.

(** X16. A call of the tool "search_gutenberg" whose arguments decode to an
    object is the lookup with: the titles of the arguments ([[]] when
    missing or falsy); [max_results_per_title] of the arguments, 3 when
    missing; [download_text] and [max_chars] of the arguments when these
    keys are there, those of the command line otherwise (the default 20000
    of the wrapper is never reached).  When [int] rejects one of the two
    numbers the call raises before any remote call. *)
Theorem tool_call_arguments (cli_download_text : bool) (cli_max_chars : Z)
    (arguments : option string) (parsed : pydict) :
  json_loads (raw_args_of arguments) = Some (PDict parsed) ->
  NoDup (dict_keys parsed) ->
  tool_result float_repr net int_of_str json_loads cli_download_text
    cli_max_chars "search_gutenberg" arguments
  = match py_int int_of_str
            (py_get_default "max_results_per_title" parsed (PInt 3)) with
    | Raised e => ([], Raised e)
    | Returned max_results =>
        match chosen_max_chars int_of_str parsed cli_max_chars with
        | Raised e => ([], Raised e)
        | Returned max_chars =>
            lift_lookup
              (search_gutenberg float_repr net
                 (py_or (py_get "titles" parsed) (PList []))
                 max_results
                 (truthy (py_get_default "download_text" parsed
                            (PBool cli_download_text)))
                 max_chars)
        end
    end.
Proof.
  intros Hjson Hnodup. unfold tool_result. rewrite Hjson, String.eqb_refl.
  unfold call_search_gutenberg_tool, chosen_max_chars, py_get, py_get_default.
  rewrite !(dict_get_merge _ _ _ Hnodup). cbn [dict_get String.eqb Ascii.eqb Bool.eqb].
  destruct (dict_get "max_results_per_title" parsed) as [v |];
    (destruct (py_int int_of_str _) as [max_results | e]; [| reflexivity]);
    destruct (dict_get "titles" parsed), (dict_get "download_text" parsed),
      (dict_get "max_chars" parsed) as [[| b | n | f | s0 | l | d] |];
    cbn [py_int];
    repeat match goal with
           | |- context [int_of_float ?f] => destruct (int_of_float f)
           | |- context [int_of_str ?s] => destruct (int_of_str s)
           end;
    unfold lift_lookup;
    try reflexivity;
    destruct (search_gutenberg _ _ _ _ _ _) as [log r]; reflexivity.
Qed.

(** X17. A tool call whose arguments are missing, empty, undecodable or the
    empty object makes no remote call and returns [{"results": []}]: neither
    the defaults of the command line nor those of the wrapper put a title
    in. *)
Theorem tool_call_without_arguments (cli_download_text : bool)
    (cli_max_chars : Z) (arguments : option string) :
  json_loads (raw_args_of arguments) = None \/
  json_loads (raw_args_of arguments) = Some (PDict []) ->
  tool_result float_repr net int_of_str json_loads cli_download_text
    cli_max_chars "search_gutenberg" arguments
  = ([], Returned (PDict [ ("results", PList []) ])).
Proof.
  intros H. unfold tool_result. destruct H as [-> | ->]; reflexivity.
Qed.

(** Calls that are turned down before any remote call: another tool, and
    arguments that decode to something that is not an object. *)
Lemma tool_call_rejected (cli_download_text : bool) (cli_max_chars : Z)
    (name : string) (arguments : option string) :
  (name <> "search_gutenberg" ->
   tool_result float_repr net int_of_str json_loads cli_download_text
     cli_max_chars name arguments
   = ([], Returned (PDict [ ("error", PStr ("Unknown tool " ++ name)) ])))
  /\ (forall v,
        json_loads (raw_args_of arguments) = Some v ->
        is_dict v = false ->
        tool_result float_repr net int_of_str json_loads cli_download_text
          cli_max_chars "search_gutenberg" arguments
        = ([], Raised (Builtin (TypeError
                 ("'" ++ type_name v ++ "' object is not a mapping"))))).
Proof.
  split.
  - intros Hname. unfold tool_result.
    apply String.eqb_neq in Hname. now rewrite Hname.
  - intros v Hv Hd. unfold tool_result. rewrite Hv.
    destruct v; try reflexivity. discriminate.
Qed.

End AppFacts.

(** * Records that abort the call, and records never looked at *)

Section RecordFacts.

Variable float_repr : spec_float -> string.
Variable net : remote.

Lemma py_iter_ok_iterable (book : pydict) (items : list pyval) :
  py_iter (raw_authors_of book) = Ok items ->
  iterable_or_falsy (py_get "authors" book).
Proof.
  unfold raw_authors_of, py_or, iterable_or_falsy.
  destruct (truthy (py_get "authors" book)) eqn:Ht; [| now left].
  destruct (py_get "authors" book); try discriminate; auto.
Qed.

Lemma pick_ok_mapping (book : pydict) (text_url : pyval) :
  _pick_best_text_format (formats_of book) = Ok text_url ->
  mapping_or_falsy (py_get "formats" book).
Proof.
  unfold formats_of, py_or, mapping_or_falsy.
  destruct (truthy (py_get "formats" book)) eqn:Ht; [| now left].
  unfold _pick_best_text_format. rewrite Ht. cbn [negb].
  destruct (py_get "formats" book); try discriminate; auto.
Qed.

(** A truthy "authors" that cannot be iterated, or a truthy "formats" that
    is not a mapping, makes normalization raise. *)
Lemma normalize_book_raises (site : nat * nat) (book : pydict)
    (download_text : bool) (max_chars : option Z) :
  ~ iterable_or_falsy (py_get "authors" book) \/
  ~ mapping_or_falsy (py_get "formats" book) ->
  exists e,
    outcome (_normalize_book float_repr net site book download_text max_chars)
    = Raise e.
Proof.
  intros Hbad.
  destruct (py_iter (raw_authors_of book)) as [items | e] eqn:Hit.
  2:{ exists e. unfold _normalize_book. fold (raw_authors_of book). now rewrite Hit. }
  destruct (_pick_best_text_format (formats_of book)) as [text_url | e] eqn:Hpick.
  2:{ exists e. unfold _normalize_book. fold (raw_authors_of book).
      fold (formats_of book). now rewrite Hit, Hpick. }
  apply py_iter_ok_iterable in Hit. apply pick_ok_mapping in Hpick. tauto.
Qed.

Lemma normalize_all_raises (i : nat) (download_text : bool) (max_chars : option Z)
    (book : pydict) (raw : list pyval) (j : nat) :
  In (PDict book) raw ->
  (forall site, exists e,
     outcome (_normalize_book float_repr net site book download_text max_chars)
     = Raise e) ->
  exists e,
    outcome (normalize_all float_repr net i j raw download_text max_chars) = Raise e.
Proof.
  intros Hin Hbook. revert j; induction raw as [| v rest IH]; intros j; [destruct Hin |].
  destruct Hin as [-> | Hin].
  - cbn [normalize_all]. rewrite outcome_bind.
    destruct (Hbook (i, j)) as [e He]. rewrite He. now exists e.
  - destruct v as [| | | | | | book']; try (apply IH; exact Hin).
    cbn [normalize_all]. rewrite outcome_bind.
    destruct (outcome (_normalize_book float_repr net (i, j) book' download_text
                         max_chars)) as [m | e]; [| now exists e].
    rewrite outcome_bind. destruct (IH Hin (S j)) as [e He]. rewrite He.
    now exists e.
Qed.

(** X18. One record among the kept ones whose "authors" is a truthy value
    that cannot be iterated, or whose "formats" is a truthy value that is not
    a mapping, makes the whole call raise: no response is returned, for no
    title. *)
Theorem malformed_record_aborts (titles : list pyval) (max_results : Z)
    (download_text : bool) (max_chars : option Z) (i : nat) (q : string)
    (d : pydict) (raw : list pyval) (book : pydict) :
  nth_error (clean_titles float_repr titles) i = Some q ->
  gutendex net i q = SearchJson (PDict d) ->
  py_get_default "results" d (PList []) = PList raw ->
  In (PDict book) (firstn (Z.to_nat (Z.max 1 max_results)) raw) ->
  ~ iterable_or_falsy (py_get "authors" book) \/
  ~ mapping_or_falsy (py_get "formats" book) ->
  exists e,
    outcome (search_gutenberg float_repr net (PList titles) max_results
               download_text max_chars) = Raise e /\
    raised_on_remote_data e.
Proof.
  intros Hq Hg Hres Hin Hbad.
  rewrite search_gutenberg_list. cbn zeta. cbn [outcome snd]. unfold enumerate.
  destruct (outcome (gather _ _)) as [results | e] eqn:G.
  - apply (gather_indexed_ok net
             (fun i q => handle_single_title float_repr net (Z.max 1 max_results)
                           download_text max_chars i q)) in G as [_ Hnth].
    destruct (Hnth i q Hq) as (e & _ & Hrun). cbn [Nat.add] in Hrun.
    rewrite handle_single_title_run, Hg, Hres in Hrun. cbn zeta in Hrun.
    cbn [outcome snd] in Hrun. rewrite slice_to_firstn in Hrun by lia.
    destruct (normalize_all_raises i download_text max_chars book _ 0 Hin
                (fun site => normalize_book_raises site book _ _ Hbad)) as [e' He'].
    rewrite He' in Hrun. discriminate Hrun.
  - exists e. split; [reflexivity |].
    apply (gather_indexed_raise net
             (fun i q => handle_single_title float_repr net (Z.max 1 max_results)
                           download_text max_chars i q)) in G as (k & q' & _ & Hr).
    exact (handle_single_title_raise _ _ _ _ _ _ _ _ Hr).
Qed.

End RecordFacts.

(** X19. The raw results beyond the limit are never looked at: two search
    answers whose lists agree on the first [max_results] entries give the
    same entry, the same calls and the same exception, whatever follows in
    the lists (a record that would make normalization raise included). *)
Theorem records_beyond_limit_ignored (float_repr : spec_float -> string)
    (net net' : remote) (max_results : Z) (download_text : bool)
    (max_chars : option Z) (i : nat) (q : string) (d d' : pydict)
    (raw raw' : list pyval) :
  0 <= max_results ->
  gutendex net i q = SearchJson (PDict d) ->
  gutendex net' i q = SearchJson (PDict d') ->
  py_get_default "results" d (PList []) = PList raw ->
  py_get_default "results" d' (PList []) = PList raw' ->
  firstn (Z.to_nat max_results) raw = firstn (Z.to_nat max_results) raw' ->
  (forall k u, download net' i k u = download net i k u) ->
  handle_single_title float_repr net' max_results download_text max_chars i q
  = handle_single_title float_repr net max_results download_text max_chars i q.
Proof.
  intros Hpos Hg Hg' Hr Hr' Hfirst Hd.
  rewrite !handle_single_title_run, Hg, Hg', Hr, Hr'. cbn zeta.
  rewrite !slice_to_firstn by exact Hpos. rewrite <- Hfirst.
  now rewrite (normalize_all_local float_repr net net' i download_text max_chars _ 0 Hd).
Qed.

(** * Concrete runs of the further properties *)

(** When a handler raises, searches of other handlers may never be made:
    on [net_odd] the handler of "x" raises while that of "y", at position 0,
    has made none of its calls. *)
Example raise_leaves_searches_unmade :
  search_gutenberg float_repr0 net_odd (PList [PStr "y"; PStr "x"]) 3 false None
  = ([SearchCall "x"], Raise (AttributeError "'list' object has no attribute 'get'")).
Proof. reflexivity. Qed.

Lemma entries_well_formed_witness :
  exists results,
    outcome (search_gutenberg float_repr0 net_demo (PList [PStr "a"; PStr "b"]) 1
               false None) = Ok (PDict [ ("results", PList results) ]) /\
    List.length results = 2%nat /\
    exists e,
      nth_error results 0 = Some e /\
      entry_for "a" (SearchHttpError "timed out") e.
Proof.
  destruct (entries_well_formed float_repr0 net_demo [PStr "a"; PStr "b"] 1 false
              None _ eq_refl) as (results & Hresp & Hlen & Hnth).
  exists results. split; [now rewrite <- Hresp |]. split; [exact Hlen |].
  exact (proj2 (Hnth 0%nat "a" eq_refl)).
Defined.

Lemma searches_only_without_download_witness :
  exists response,
    outcome (search_gutenberg float_repr0 net_demo (PList [PStr "a"; PStr " b "]) 3
               false None) = Ok response /\
    calls (search_gutenberg float_repr0 net_demo (PList [PStr "a"; PStr " b "]) 3
             false None) = [SearchCall "a"; SearchCall "b"].
Proof.
  eexists. split; [reflexivity |].
  etransitivity.
  - eapply (proj1 (proj2 (searches_only_without_download float_repr0 net_demo
                            [PStr "a"; PStr " b "] 3 None))).
    reflexivity.
  - reflexivity.
Defined.

Lemma prompted_titles_are_searched_as_typed_witness :
  exists response,
    outcome (search_gutenberg float_repr0 net_demo
               (PList (map PStr (prompt_for_titles "Dracula; Emma"))) 3 true None)
    = Ok response /\
    filter is_search_call
      (calls (search_gutenberg float_repr0 net_demo
                (PList (map PStr (prompt_for_titles "Dracula; Emma"))) 3 true None))
    = [SearchCall "Dracula"; SearchCall "Emma"].
Proof.
  eexists. split; [reflexivity |].
  etransitivity.
  - eapply (proj1 (proj2 (prompted_titles_are_searched_as_typed float_repr0
                            net_demo "Dracula; Emma" 3 true None))).
    reflexivity.
  - reflexivity.
Defined.

Lemma matches_have_fixed_keys_witness :
  outcome (search_gutenberg float_repr0 net_demo (PList [PStr "b"]) 0 false None)
  = Ok (PDict [ ("results", PList demo_results) ])
  /\ forall e m, In e demo_results -> In m (matches_of e) -> match_keyed false m.
Proof.
  split; [reflexivity |].
  apply (matches_have_fixed_keys float_repr0 net_demo [PStr "b"] 0 false None).
  reflexivity.
Defined.

Lemma download_goes_to_text_url_witness :
  exists m,
    outcome (_normalize_book float_repr0 net_demo (0%nat, 0%nat)
               [ ("formats", PDict [ ("text/plain", PStr "http://x/1661.txt") ]) ]
               true None) = Ok (PDict m) /\
    calls (_normalize_book float_repr0 net_demo (0%nat, 0%nat)
             [ ("formats", PDict [ ("text/plain", PStr "http://x/1661.txt") ]) ]
             true None) = [DownloadCall "http://x/1661.txt"].
Proof.
  eexists. split; [reflexivity |].
  etransitivity.
  - eapply (download_goes_to_text_url float_repr0 net_demo (0%nat, 0%nat)
              [ ("formats", PDict [ ("text/plain", PStr "http://x/1661.txt") ]) ]
              true None). reflexivity.
  - reflexivity.
Defined.

Lemma non_object_body_aborts_witness :
  nth_error (clean_titles float_repr0 [PStr "b"; PStr "x"]) 1 = Some "x"
  /\ gutendex net_odd 1 "x" = SearchJson (PList [])
  /\ is_dict (PList []) = false
  /\ exists e,
       outcome (search_gutenberg float_repr0 net_odd (PList [PStr "b"; PStr "x"])
                  3 false None) = Raise e /\
       raised_on_remote_data e.
Proof.
  split; [reflexivity |]. split; [reflexivity |]. split; [reflexivity |].
  apply (non_object_body_aborts float_repr0 net_odd [PStr "b"; PStr "x"] 3 false
           None 1 "x" (PList [])); reflexivity.
Defined.

Lemma missing_results_is_no_error_witness :
  gutendex net_odd 0 "e" = SearchJson (PDict [])
  /\ dict_get "results" [] = None
  /\ handle_single_title float_repr0 net_odd 3 true None 0 "e"
     = ([SearchCall "e"], Ok (PDict [ ("query", PStr "e"); ("matches", PList []) ])).
Proof.
  split; [reflexivity |]. split; [reflexivity |].
  apply (missing_results_is_no_error float_repr0 net_odd 3 true None 0 "e" []);
    [reflexivity | left; reflexivity].
Defined.

Lemma picked_url_is_a_text_entry_witness :
  _pick_best_text_format
    (PDict [ ("application/pdf", PStr "A.pdf"); ("text/html", PStr "B.html") ])
  = Ok (PStr "B.html")
  /\ exists key,
       In (key, PStr "B.html")
          [ ("application/pdf", PStr "A.pdf"); ("text/html", PStr "B.html") ] /\
       startswith key "text/" = true /\ is_zip "B.html" = false.
Proof.
  split; [reflexivity |].
  apply (picked_url_is_a_text_entry
           [ ("application/pdf", PStr "A.pdf"); ("text/html", PStr "B.html") ]).
  reflexivity.
Defined.

Lemma text_within_max_chars_witness :
  0 < 10
  /\ exists m,
       outcome (_normalize_book float_repr0 net_demo (0%nat, 0%nat)
                  [ ("formats", PDict [ ("text/plain", PStr "http://x/1661.txt") ]) ]
                  true (Some 10)) = Ok (PDict m) /\
       dict_get "text" m = Some (PStr "0123456789") /\
       (String.length "0123456789" <= Z.to_nat 10)%nat.
Proof.
  split; [reflexivity |].
  eexists. split; [reflexivity |]. split; [reflexivity |].
  eapply (text_within_max_chars float_repr0 net_demo (0%nat, 0%nat)
            [ ("formats", PDict [ ("text/plain", PStr "http://x/1661.txt") ]) ]
            true 10) with (t := "0123456789"); reflexivity.
Defined.

Lemma authors_of_match_witness :
  py_get "authors"
    [ ("authors", PList [ PDict [ ("name", PStr "Doyle, Arthur Conan") ]; PInt 3 ]) ]
  = PList [ PDict [ ("name", PStr "Doyle, Arthur Conan") ]; PInt 3 ]
  /\ exists m,
       outcome (_normalize_book float_repr0 net_down (0%nat, 0%nat)
                  [ ("authors",
                     PList [ PDict [ ("name", PStr "Doyle, Arthur Conan") ]; PInt 3 ]) ]
                  false None) = Ok (PDict m) /\
       dict_get "authors" m
       = Some (PList [ PDict [ ("name", PStr "Doyle, Arthur Conan");
                               ("birth_year", PNone); ("death_year", PNone) ] ]).
Proof.
  split; [reflexivity |].
  eexists. split; [reflexivity |].
  etransitivity.
  - eapply (authors_of_match float_repr0 net_down (0%nat, 0%nat)
              [ ("authors",
                 PList [ PDict [ ("name", PStr "Doyle, Arthur Conan") ]; PInt 3 ]) ]
              false None); reflexivity.
  - reflexivity.
Defined.

Lemma gutenberg_url_identifies_id_witness :
  py_get "id" [ ("id", PInt 1661) ] = PInt 1661
  /\ py_get "id" [ ("id", PInt 1342) ] = PInt 1342
  /\ exists m m',
       outcome (_normalize_book float_repr0 net_down (0%nat, 0%nat)
                  [ ("id", PInt 1661) ] false None) = Ok (PDict m) /\
       outcome (_normalize_book float_repr0 net_down (0%nat, 1%nat)
                  [ ("id", PInt 1342) ] false None) = Ok (PDict m') /\
       dict_get "gutenberg_url" m
       = Some (PStr "https://www.gutenberg.org/ebooks/1661").
Proof.
  split; [reflexivity |]. split; [reflexivity |].
  eexists. eexists. split; [reflexivity |]. split; [reflexivity |].
  eapply proj1.
  eapply (gutenberg_url_identifies_id float_repr0 net_down (0%nat, 0%nat)
            (0%nat, 1%nat) [ ("id", PInt 1661) ] [ ("id", PInt 1342) ]
            false false None None) with (n := 1661) (n' := 1342); reflexivity.
Defined.

Lemma prompted_titles_are_clean_witness :
  py_strip "   " = "" /\ prompt_for_titles "   " = []
  /\ Forall title_clean (prompt_for_titles " Dracula ; Emma,, ").
Proof.
  split; [reflexivity |]. split.
  - apply (proj2 (prompted_titles_are_clean "   ")). reflexivity.
  - apply (proj1 (prompted_titles_are_clean " Dracula ; Emma,, ")).
Defined.

Lemma prompt_reads_back_titles_witness :
  Forall title_clean ["Dracula"; "Pride and Prejudice"]
  /\ prompt_for_titles "Dracula; Pride and Prejudice"
     = ["Dracula"; "Pride and Prejudice"].
Proof.
  assert (H : Forall title_clean ["Dracula"; "Pride and Prejudice"]).
  { repeat constructor; discriminate. }
  split; [exact H |].
  apply (prompt_reads_back_titles ";" ["Dracula"; "Pride and Prejudice"]);
    [right; reflexivity | exact H].
Defined.

Lemma tool_call_arguments_witness :
  json_loads0 (raw_args_of (Some "b, no text"))
  = Some (PDict [ ("titles", PList [PStr "b"]); ("download_text", PBool false) ])
  /\ NoDup (dict_keys [ ("titles", PList [PStr "b"]); ("download_text", PBool false) ])
  /\ fst (tool_result float_repr0 net_demo int_of_str0 json_loads0 true 5000
            "search_gutenberg" (Some "b, no text"))
     = [SearchCall "b"].
Proof.
  assert (H : NoDup (dict_keys [ ("titles", PList [PStr "b"]);
                                 ("download_text", PBool false) ])).
  { repeat constructor; simpl; intuition discriminate. }
  split; [reflexivity |]. split; [exact H |].
  rewrite (tool_call_arguments float_repr0 net_demo int_of_str0 json_loads0 true
             5000 (Some "b, no text")
             [ ("titles", PList [PStr "b"]); ("download_text", PBool false) ]
             eq_refl H).
  reflexivity.
Defined.

Lemma tool_call_without_arguments_witness :
  json_loads0 (raw_args_of None) = Some (PDict [])
  /\ tool_result float_repr0 net_demo int_of_str0 json_loads0 true 5000
       "search_gutenberg" None
     = ([], Returned (PDict [ ("results", PList []) ])).
Proof.
  split; [reflexivity |].
  apply (tool_call_without_arguments float_repr0 net_demo int_of_str0 json_loads0
           true 5000 None).
  right. reflexivity.
Defined.

Lemma malformed_record_aborts_witness :
  nth_error (clean_titles float_repr0 [PStr "m"]) 0 = Some "m"
  /\ ~ mapping_or_falsy (py_get "formats" [ ("formats", PStr "abc") ])
  /\ exists e,
       outcome (search_gutenberg float_repr0 net_odd (PList [PStr "m"]) 3 false None)
       = Raise e /\
       raised_on_remote_data e.
Proof.
  assert (H : ~ mapping_or_falsy (py_get "formats" [ ("formats", PStr "abc") ])).
  { intros [H | H]; discriminate H. }
  split; [reflexivity |]. split; [exact H |].
  apply (malformed_record_aborts float_repr0 net_odd [PStr "m"] 3 false None 0 "m"
           [ ("results", PList [ PDict [ ("formats", PStr "abc") ] ]) ]
           [ PDict [ ("formats", PStr "abc") ] ] [ ("formats", PStr "abc") ]);
    [reflexivity | reflexivity | reflexivity | left; reflexivity | right; exact H].
Defined.

Lemma records_beyond_limit_ignored_witness :
  0 <= 1
  /\ firstn (Z.to_nat 1) [demo_book; PInt 3; demo_book] = firstn (Z.to_nat 1) [demo_book]
  /\ handle_single_title float_repr0 net_odd 1 true None 0 "b"
     = handle_single_title float_repr0 net_demo 1 true None 0 "b".
Proof.
  split; [discriminate |]. split; [reflexivity |].
  apply (records_beyond_limit_ignored float_repr0 net_demo net_odd 1 true None 0 "b"
           [ ("results", PList [demo_book; PInt 3; demo_book]) ]
           [ ("results", PList [demo_book]) ]
           [demo_book; PInt 3; demo_book] [demo_book]);
    try reflexivity. discriminate.
Defined.
